(** * Smart Model Router: difficulty classifier, routing and accounting

    A shallow embedding of [app/router/classifier.py], [app/config.py],
    [app/router/model_clients.py] and [app/main.py].

    Conventions of the embedding.
    - A Python [str] is a [string]; each [ascii] is read as the code point
      of the same number (U+0000 to U+00FF), and [lower], [split] and the
      regular-expression classes follow CPython on that range.
    - The classifier's score and confidence are IEEE binary64 numbers
      ([PrimFloat.float]), as in CPython, because the score is compared
      with thresholds that it can hit exactly.
    - Token counts are integers ([Z]).  Prices, costs and latencies are
      binary64 numbers too, with the operations of the code in the
      order of the code; [round] and the conversion of an [int] to a
      [float] follow CPython through the exact value of the number.
    - A value that Python may hold as [None] is an [option].
    - The SQLAlchemy session is a record of two tables that [generate]
      and [get_stats] take and return.  The handler commits without
      rolling back, so what the session holds when an exception is
      caught is committed with the error record. *)

From Stdlib Require Import List String Ascii Bool Arith NArith ZArith Lia.
From Stdlib Require Import QArith Lqa.
From Stdlib Require Import PrimFloat SpecFloat FloatOps DecimalString.
Import ListNotations.

Set Warnings "-inexact-float".

(* ================================================================== *)
(** ** Python strings *)

Module PyStr.

Local Open Scope N_scope.

Definition code (c : ascii) : N := N_of_ascii c.

Definition in_range (lo hi : N) (c : ascii) : bool :=
  (lo <=? code c) && (code c <=? hi).

(** [str.isupper] on one character: A-Z, and the capital letters of the
    Latin-1 block (U+00C0..U+00DE without the multiplication sign). *)
Definition is_upper (c : ascii) : bool :=
  in_range 65 90 c || in_range 192 214 c || in_range 216 222 c.

Definition lower_char (c : ascii) : ascii :=
  if is_upper c then ascii_of_N (code c + 32) else c.

(** [s.lower()] *)
Fixpoint lower (s : string) : string :=
  match s with
  | EmptyString => EmptyString
  | String c s' => String (lower_char c) (lower s')
  end.

(** [str.isspace] on one character; also the class [\s] of [re]. *)
Definition isspace (c : ascii) : bool :=
  in_range 9 13 c || in_range 28 32 c || (code c =? 133) || (code c =? 160).

(** [str.isalnum] or underscore: the class [\w] of [re]. *)
Definition is_word (c : ascii) : bool :=
  in_range 48 57 c || in_range 65 90 c || in_range 97 122 c || (code c =? 95)
  || (code c =? 170) || in_range 178 179 c || (code c =? 181)
  || in_range 185 186 c || in_range 188 190 c
  || in_range 192 214 c || in_range 216 246 c || in_range 248 255 c.

Definition is_empty (s : string) : bool :=
  match s with EmptyString => true | _ => false end.

(** [s.split()]: the maximal runs of characters that are not whitespace.
    [cur] is the run being read. *)
Fixpoint split_from (s cur : string) : list string :=
  match s with
  | EmptyString => if is_empty cur then [] else [cur]
  | String c s' =>
      if isspace c
      then (if is_empty cur then split_from s' EmptyString
            else cur :: split_from s' EmptyString)
      else split_from s' (cur ++ String c EmptyString)
  end.

Definition split (s : string) : list string := split_from s EmptyString.

Fixpoint startswith (p s : string) : bool :=
  match p, s with
  | EmptyString, _ => true
  | String a p', String b s' => Ascii.eqb a b && startswith p' s'
  | String _ _, EmptyString => false
  end.

(** [kw in s] *)
Fixpoint str_in (kw s : string) : bool :=
  startswith kw s ||
  match s with
  | EmptyString => false
  | String _ s' => str_in kw s'
  end.

(** [s.count(c)] for a one-character needle. *)
Fixpoint count_char (c : ascii) (s : string) : nat :=
  match s with
  | EmptyString => 0%nat
  | String a s' => ((if Ascii.eqb a c then 1 else 0) + count_char c s')%nat
  end.

(** [str(n)] for a non-negative integer. *)
Definition str_of_nat (n : nat) : string :=
  NilEmpty.string_of_uint (Nat.to_uint n).

(** [sep.join(l)] *)
Definition join (sep : string) (l : list string) : string :=
  String.concat sep l.

End PyStr.

(* ================================================================== *)
(** ** The fragment of [re] that [_contains_code] uses

    A pattern is a sequence of items: a character class taken once, one
    or more times, or zero or more times, and the word boundary [\b].
    [re.search] asks whether the pattern matches at some position; which
    of several matches is found does not matter to its use as a test. *)

Module Re.

Inductive quant := Once | Many1 | Many0.

Inductive item :=
| Cls (q : quant) (c : ascii -> bool)
| WordBoundary.

Definition pattern := list item.

Definition is_word_opt (o : option ascii) : bool :=
  match o with Some c => PyStr.is_word c | None => false end.

Definition head (s : string) : option ascii :=
  match s with EmptyString => None | String c _ => Some c end.

(** [k] is what has to match after the repetition; [prev] is the
    character before the current position. *)
Fixpoint star (c : ascii -> bool) (k : option ascii -> string -> bool)
         (prev : option ascii) (s : string) : bool :=
  k prev s ||
  match s with
  | EmptyString => false
  | String a s' => c a && star c k (Some a) s'
  end.

Fixpoint match_here (pat : pattern) : option ascii -> string -> bool :=
  match pat with
  | [] => fun _ _ => true
  | WordBoundary :: rest => fun prev s =>
      xorb (is_word_opt prev) (is_word_opt (head s)) && match_here rest prev s
  | Cls Once c :: rest => fun _ s =>
      match s with
      | EmptyString => false
      | String a s' => c a && match_here rest (Some a) s'
      end
  | Cls Many1 c :: rest => fun _ s =>
      match s with
      | EmptyString => false
      | String a s' => c a && star c (match_here rest) (Some a) s'
      end
  | Cls Many0 c :: rest => fun prev s => star c (match_here rest) prev s
  end.

Fixpoint search_from (pat : pattern) (prev : option ascii) (s : string) : bool :=
  match_here pat prev s ||
  match s with
  | EmptyString => false
  | String a s' => search_from pat (Some a) s'
  end.

(** [re.search(pat, s)] as a truth value *)
Definition search (pat : pattern) (s : string) : bool := search_from pat None s.

Definition lit (s : string) : pattern :=
  map (fun c => Cls Once (Ascii.eqb c)) (list_ascii_of_string s).

Definition ws : ascii -> bool := PyStr.isspace.
Definition w : ascii -> bool := PyStr.is_word.
(** [.] without DOTALL: anything but a line feed *)
Definition dot (c : ascii) : bool := negb (Ascii.eqb c "010"%char).

End Re.

(* ================================================================== *)
(** ** [app/models.py]: the classification result *)

Inductive Difficulty := simple | medium | complex.

Definition difficulty_name (d : Difficulty) : string :=
  match d with
  | simple => "simple"
  | medium => "medium"
  | complex => "complex"
  end.

Record ClassificationResult := {
  difficulty : Difficulty;
  confidence : float;
  reasoning : string
}.

(* ================================================================== *)
(** ** [app/router/classifier.py] *)

Module PromptClassifier.

Import PyStr.
Local Open Scope string_scope.

Definition complex_keywords : list string := [
  "write a"; "create a"; "build a"; "develop";
  "analyze"; "compare"; "explain why"; "reason";
  "architecture"; "system design"; "algorithm";
  "debug"; "refactor"; "optimize";
  "multi-step"; "chain of thought"; "reasoning";
  "creative writing"; "story"; "essay"; "article"
].

Definition simple_keywords : list string := [
  "summarize"; "what is"; "define"; "list";
  "translate"; "convert"; "format";
  "yes or no"; "true or false";
  "capital of"; "when was"; "who is"
].

Definition reasoning_patterns : list string :=
  ["explain"; "why"; "how does"; "reasoning"; "analyze"].

Definition code_indicators : list Re.pattern := [
  (* ``` *)
  Re.lit "```";
  (* def\s+\w+\s*\( *)
  (Re.lit "def" ++ [Re.Cls Re.Many1 Re.ws; Re.Cls Re.Many1 Re.w;
                    Re.Cls Re.Many0 Re.ws] ++ Re.lit "(")%list;
  (* function\s+\w+\s*\( *)
  (Re.lit "function" ++ [Re.Cls Re.Many1 Re.ws; Re.Cls Re.Many1 Re.w;
                         Re.Cls Re.Many0 Re.ws] ++ Re.lit "(")%list;
  (* class\s+\w+ *)
  (Re.lit "class" ++ [Re.Cls Re.Many1 Re.ws; Re.Cls Re.Many1 Re.w])%list;
  (* \bimport\s+\w+ *)
  ([Re.WordBoundary] ++ Re.lit "import"
     ++ [Re.Cls Re.Many1 Re.ws; Re.Cls Re.Many1 Re.w])%list;
  (* <\w+>.*</\w+> *)
  (Re.lit "<" ++ [Re.Cls Re.Many1 Re.w] ++ Re.lit ">"
     ++ [Re.Cls Re.Many0 Re.dot] ++ Re.lit "</"
     ++ [Re.Cls Re.Many1 Re.w] ++ Re.lit ">")%list
].

(** The loop of [_contains_code]: the first indicator found decides. *)
Definition _contains_code (text : string) : bool :=
  existsb (fun pat => Re.search pat text) code_indicators.

(** [sum(1 for kw in kws if kw in s)] *)
Definition count_matches (kws : list string) (s : string) : nat :=
  List.length (filter (fun kw => str_in kw s) kws).

(** The conversion of a small non-negative [int] to [float], exact below
    2^53. *)
Fixpoint float_of_nat (n : nat) : float :=
  match n with
  | O => 0%float
  | S m => (float_of_nat m + 1)%float
  end.

(** [l.append(x)] *)
Definition list_append {A : Type} (l : list A) (x : A) : list A := (l ++ [x])%list.

(** [min(a, b)] of Python: the first argument unless the second is
    smaller. *)
Definition py_min (a b : float) : float := if (b <? a)%float then b else a.

Local Open Scope float_scope.

(** Lines 35 to 79 of [_classify_rule_based]: the score and the trace
    after the five signals. *)
Definition score_and_reasoning (prompt : string) : float * list string :=
  let prompt_lower := lower prompt in
  let complexity_score := 0 in
  let reasoning : list string := [] in
  (* 1. Length check *)
  let word_count := List.length (split prompt) in
  let '(complexity_score, reasoning) :=
    if (word_count <? 10)%nat then
      (complexity_score - 0.3,
       list_append reasoning ("short prompt (" ++ str_of_nat word_count ++ " words)"))
    else if (50 <? word_count)%nat then
      (complexity_score + 0.2,
       list_append reasoning ("long prompt (" ++ str_of_nat word_count ++ " words)"))
    else (complexity_score, reasoning) in
  (* 2. Keyword matching *)
  let complex_matches := count_matches complex_keywords prompt_lower in
  let simple_matches := count_matches simple_keywords prompt_lower in
  let '(complexity_score, reasoning) :=
    if (simple_matches <? complex_matches)%nat then
      (complexity_score + 0.4 * float_of_nat complex_matches,
       list_append reasoning ("complex keywords: " ++ str_of_nat complex_matches))
    else if (0 <? simple_matches)%nat then
      (complexity_score - 0.3 * float_of_nat simple_matches,
       list_append reasoning ("simple keywords: " ++ str_of_nat simple_matches))
    else (complexity_score, reasoning) in
  (* 3. Code detection *)
  let '(complexity_score, reasoning) :=
    if _contains_code prompt then
      (complexity_score + 0.3, list_append reasoning ("contains code"))
    else (complexity_score, reasoning) in
  (* 4. Question complexity *)
  let question_marks := count_char "?"%char prompt in
  let '(complexity_score, reasoning) :=
    if (question_marks =? 1)%nat && (word_count <? 15)%nat then
      (complexity_score - 0.2, list_append reasoning ("single simple question"))
    else if (2 <? question_marks)%nat then
      (complexity_score + 0.2, list_append reasoning ("multiple questions"))
    else (complexity_score, reasoning) in
  (* 5. Request for reasoning/explanation *)
  let '(complexity_score, reasoning) :=
    if existsb (fun pattern => str_in pattern prompt_lower) reasoning_patterns then
      (complexity_score + 0.3, list_append reasoning ("requires reasoning"))
    else (complexity_score, reasoning) in
  (complexity_score, reasoning).

(** The score on which the tier is decided. *)
Definition complexity_score (prompt : string) : float :=
  fst (score_and_reasoning prompt).

(** Lines 81 to 90: the tier and the confidence from the final score. *)
Definition determine_difficulty (complexity_score : float) : Difficulty * float :=
  if complexity_score <? -0.3 then
    (simple, py_min 0.9 (0.7 + abs complexity_score))
  else if 0.5 <? complexity_score then
    (complex, py_min 0.9 (0.65 + complexity_score * 0.3))
  else
    (medium, 0.6).

Definition _classify_rule_based (prompt : string) : ClassificationResult :=
  let '(complexity_score, reasoning) := score_and_reasoning prompt in
  let '(difficulty, confidence) := determine_difficulty complexity_score in
  {| difficulty := difficulty;
     confidence := confidence;
     reasoning := join " | " reasoning |}.

Definition classify (prompt : string) : ClassificationResult :=
  _classify_rule_based prompt.

End PromptClassifier.

(* ================================================================== *)
(** ** The signals of the classifier, and the scores it can reach *)

Module Signals.

Import PyStr PromptClassifier.

Definition word_count (prompt : string) : nat := List.length (split prompt).
Definition complex_matches (prompt : string) : nat :=
  count_matches complex_keywords (lower prompt).
Definition simple_matches (prompt : string) : nat :=
  count_matches simple_keywords (lower prompt).
Definition question_marks (prompt : string) : nat := count_char "?"%char prompt.

(** The conditions under which each signal of [_classify_rule_based]
    changes the score. *)
Definition keyword_signal (prompt : string) : bool :=
  (simple_matches prompt <? complex_matches prompt)%nat
  || (0 <? simple_matches prompt)%nat.
Definition code_signal (prompt : string) : bool := _contains_code prompt.
Definition question_signal (prompt : string) : bool :=
  ((question_marks prompt =? 1)%nat && (word_count prompt <? 15)%nat)
  || (2 <? question_marks prompt)%nat.
Definition reasoning_signal (prompt : string) : bool :=
  existsb (fun pattern => str_in pattern (lower prompt)) reasoning_patterns.

Local Open Scope float_scope.

(** The arithmetic of [score_and_reasoning] with the tests of its
    branches as arguments. *)
Definition score_of (short long : bool) (cm sm : nat)
           (code single multi rs : bool) : float :=
  let s := 0 in
  let s := if short then s - 0.3 else if long then s + 0.2 else s in
  let s := if (sm <? cm)%nat then s + 0.4 * float_of_nat cm
           else if (0 <? sm)%nat then s - 0.3 * float_of_nat sm else s in
  let s := if code then s + 0.3 else s in
  let s := if single then s - 0.2 else if multi then s + 0.2 else s in
  let s := if rs then s + 0.3 else s in
  s.

Definition bools : list bool := [true; false].

Definition tests : list (bool * bool * nat * nat * (bool * bool * bool * bool)) :=
  list_prod (list_prod (list_prod (list_prod bools bools)
                                  (seq 0 (S (List.length complex_keywords))))
                       (seq 0 (S (List.length simple_keywords))))
            (list_prod (list_prod (list_prod bools bools) bools) bools).

Definition score_of_test
           (t : bool * bool * nat * nat * (bool * bool * bool * bool)) : float :=
  let '(short, long, cm, sm, (code, single, multi, rs)) := t in
  score_of short long cm sm code single multi rs.

(** Every value that the final score can take. *)
Definition reachable_scores : list float := map score_of_test tests.

(** The tier decision in the words of the specification: [S < -0.3]
    gives simple with [min(0.9, 0.7 + |S|)], [S > 0.5] gives complex with
    [min(0.9, 0.65 + 0.3*S)], anything else medium with 0.6. *)
Definition fmin (a b : float) : float := if a <=? b then a else b.

Definition tier_decision_spec (S : float) : Difficulty * float :=
  if S <? -0.3 then (simple, fmin 0.9 (0.7 + abs S))
  else if 0.5 <? S then (complex, fmin 0.9 (0.65 + 0.3 * S))
  else (medium, 0.6).

(** Two prompts that differ at most in the case of their letters. *)
Definition case_variant (p q : string) : Prop := lower p = lower q.

(** The number of words of [split_from], read off the whitespace alone;
    [in_word] tells whether a word is being read. *)
Fixpoint words_from (s : string) (in_word : bool) : nat :=
  match s with
  | EmptyString => if in_word then 1 else 0
  | String c s' =>
      if isspace c
      then ((if in_word then 1 else 0) + words_from s' false)%nat
      else words_from s' true
  end.

(** The interval [0, 0.9] of the specification, as a test. *)
Definition confidence_in_bounds (c : float) : bool := (0 <=? c) && (c <=? 0.9).

End Signals.

Import PromptClassifier Signals.
Local Open Scope string_scope.

(* ================================================================== *)
(** ** Python dictionaries, exceptions and numbers *)

Module Py.

(** A [dict] with string keys, in insertion order. *)
Definition dict (V : Type) : Type := list (string * V).

(** [d[k]]: [None] stands for [KeyError]. *)
Fixpoint dict_get {V : Type} (d : dict V) (k : string) : option V :=
  match d with
  | [] => None
  | (k', v) :: d' => if String.eqb k' k then Some v else dict_get d' k
  end.

(** [d[k] = v] *)
Fixpoint dict_set {V : Type} (d : dict V) (k : string) (v : V) : dict V :=
  match d with
  | [] => [(k, v)]
  | (k', v') :: d' =>
      if String.eqb k' k then (k, v) :: d' else (k', v') :: dict_set d' k v
  end.

(** The exceptions that the body of [generate] can meet short of
    [HTTPException]: a missing key, an [int] beyond the range of
    [float] in a product of an [int] and a [float], a division of a
    [float] by the [int] 0, and the refusal of a field by the
    constructor of a pydantic model, which carries pydantic's text. *)
Inductive exception :=
| KeyError (key : string)
| OverflowError
| ZeroDivisionError
| ValidationError (text : string).

Definition squote : ascii := ascii_of_N 39.
Definition dquote : ascii := ascii_of_N 34.
Definition backslash : ascii := ascii_of_N 92.

Definition hex_digit (n : N) : ascii :=
  if (n <? 10)%N then ascii_of_N (48 + n) else ascii_of_N (87 + n).

(** The escape [\xhh] of a character, with lowercase digits. *)
Definition hex_escape (c : ascii) : string :=
  String backslash
    (String "x" (String (hex_digit (PyStr.code c / 16))
                        (String (hex_digit (PyStr.code c mod 16)) EmptyString))).

(** [str.isprintable] above U+007F, up to U+00FF: everything but the
    C1 controls, the no-break space and the soft hyphen. *)
Definition is_printable_high (c : ascii) : bool :=
  (160 <? PyStr.code c)%N && negb (PyStr.code c =? 173)%N.

(** One character of [repr(s)] when [quote] encloses the string. *)
Definition repr_char (quote c : ascii) : string :=
  if Ascii.eqb c quote || Ascii.eqb c backslash then
    String backslash (String c EmptyString)
  else if (PyStr.code c =? 9)%N then String backslash "t"
  else if (PyStr.code c =? 10)%N then String backslash "n"
  else if (PyStr.code c =? 13)%N then String backslash "r"
  else if (PyStr.code c <? 32)%N || (PyStr.code c =? 127)%N then hex_escape c
  else if (PyStr.code c <? 127)%N then String c EmptyString
  else if is_printable_high c then String c EmptyString
  else hex_escape c.

Fixpoint repr_body (quote : ascii) (s : string) : string :=
  match s with
  | EmptyString => EmptyString
  | String c s' => repr_char quote c ++ repr_body quote s'
  end.

Fixpoint has_char (c : ascii) (s : string) : bool :=
  match s with
  | EmptyString => false
  | String a s' => Ascii.eqb a c || has_char c s'
  end.

(** [repr(s)] of a [str]: between single quotes, or between double
    quotes when the string holds a single quote and no double quote. *)
Definition repr (s : string) : string :=
  let quote :=
    if has_char squote s && negb (has_char dquote s) then dquote else squote in
  String quote (repr_body quote s ++ String quote EmptyString).

(** [str(e)]; a [KeyError] with one argument prints the [repr] of its
    key, and the texts of the arithmetic errors are those of CPython up
    to 3.13. *)
Definition str_exception (e : exception) : string :=
  match e with
  | KeyError key => repr key
  | OverflowError => "int too large to convert to float"
  | ZeroDivisionError => "float division by zero"
  | ValidationError text => text
  end.

(** The binary64 number nearest to an integer, ties to even. *)
Definition float_of_Z (z : Z) : float :=
  SF2Prim (binary_normalize prec emax z 0 false).

(** [float(z)] where it can raise: [None] stands for [OverflowError],
    raised when the nearest binary64 number is not finite. *)
Definition float_of_int (z : Z) : option float :=
  let f := float_of_Z z in
  if is_infinity f then None else Some f.

(** The integer nearest to [n / d], ties to even, for [0 <= n], [0 < d]. *)
Definition div_half_even (n d : Z) : Z :=
  let (q, r) := Z.div_eucl n d in
  match (2 * r ?= d)%Z with
  | Lt => q
  | Gt => (q + 1)%Z
  | Eq => if Z.even q then q else (q + 1)%Z
  end.

(** [round(x, ndigits)] of a [float], for [0 <= ndigits]: the exact
    value of [x] is rounded to a multiple of [10^-ndigits], ties to
    even, and the binary64 number nearest to that decimal is returned;
    zeros, infinities and NaN are returned as they are. *)
Definition round (x : float) (ndigits : nat) : float :=
  match Prim2SF x with
  | S754_finite s m e =>
      let scale := (10 ^ Z.of_nat ndigits)%Z in
      let k := match e with
               | Zneg p => div_half_even (Zpos m * scale) (2 ^ Zpos p)
               | _ => (Zpos m * 2 ^ e * scale)%Z
               end in
      match k with
      | Zpos p =>
          SF2Prim (SFdiv prec emax (S754_finite s p 0)
                         (S754_finite false (Z.to_pos scale) 0))
      | _ => if s then neg_zero else zero
      end
  | _ => x
  end.

(** [sum] over a column that may hold NULL, from the left and from 0,
    each addition rounded to binary64 (the plain loop of CPython up to
    3.11; later versions compensate the rounding of the partial sums);
    adding NULL raises, which is [None] here. *)
Definition sum_column (l : list (option float)) : option float :=
  fold_left (fun acc x =>
               match acc, x with
               | Some a, Some v => Some (a + v)%float
               | _, _ => None
               end) l (Some 0%float).

End Py.

(* ================================================================== *)
(** ** [app/config.py] *)

Module Config.

(** The model names of [Settings], read from the environment. *)
Record Settings := {
  simple_model : string;
  medium_model : string;
  complex_model : string
}.

(** The defaults of [os.getenv]. *)
Definition default_settings : Settings := {|
  simple_model := "google/gemini-flash-1.5";
  medium_model := "anthropic/claude-3-haiku";
  complex_model := "anthropic/claude-3.5-sonnet"
|}.

Definition MODEL_COSTS : Py.dict float := [
  ("google/gemini-flash-1.5", 0.10 / 1000000);
  ("anthropic/claude-3-haiku", 1.00 / 1000000);
  ("anthropic/claude-3.5-sonnet", 3.00 / 1000000)
]%float.

(** The dictionary has exactly the three tiers as keys, so the lookup is
    a total function of the tier. *)
Definition DIFFICULTY_TO_MODEL (settings : Settings) (d : Difficulty) : string :=
  match d with
  | simple => simple_model settings
  | medium => medium_model settings
  | complex => complex_model settings
  end.

End Config.

(* ================================================================== *)
(** ** [app/router/model_clients.py] *)

Inductive Status := success | error.

Definition status_name (s : Status) : string :=
  match s with success => "success" | error => "error" end.

Module ModelRouter.

(** The dictionary that [ModelClient.generate] returns; [response] is
    [None] when the provider sends a message without content. *)
Record response_data := {
  response : option string;
  tokens_used : Z;
  latency_ms : float;
  status : Status
}.

(** The model-serving backend: model name, prompt, [max_tokens] and
    [temperature] to the client's answer. *)
Definition Backend : Type :=
  string -> string -> option Z -> option float -> response_data.

Definition route_and_generate (settings : Config.Settings) (backend : Backend)
           (difficulty : Difficulty) (prompt : string)
           (max_tokens : option Z) (temperature : option float)
  : response_data * string :=
  let model_name := Config.DIFFICULTY_TO_MODEL settings difficulty in
  let response := backend model_name prompt max_tokens temperature in
  (response, model_name).

End ModelRouter.

(* ================================================================== *)
(** ** [app/database.py] and [app/models.py]

    The columns that the handlers write or read; the timestamps, which
    come from the clock, and the key of [ModelStats], which nothing
    reads, are left out.  A column without a value (NULL) is [None];
    the rows of [ModelStats] have all their columns filled, as every
    row that [generate] writes has. *)

Module RequestLog.
Record t := {
  id : nat;
  prompt : string;
  prompt_tokens : option Z;
  difficulty : string;
  confidence : float;
  selected_model : string;
  response : option string;
  response_tokens : option Z;
  latency_ms : option float;
  cost_usd : option float;
  cost_saved_usd : option float;
  user_id : option string;
  status : Status
}.
End RequestLog.

Module ModelStats.
Record t := {
  model_name : string;
  total_requests : Z;
  total_tokens : Z;
  total_cost_usd : float;
  avg_latency_ms : float
}.
End ModelStats.

(** The two tables behind the session. *)
Record DB := {
  request_logs : list RequestLog.t;
  model_stats : list ModelStats.t
}.

(** The key that the database gives to a new row of the request log.
    The default [DATABASE_URL] is SQLite, where an integer primary key
    that is not supplied is one more than the largest key of the table,
    and 1 in an empty table. *)
Definition next_id (logs : list RequestLog.t) : nat :=
  S (fold_right Nat.max 0%nat (map RequestLog.id logs)).

(** [max_tokens] and [temperature] are [Optional]: a request may give
    them as null. *)
Module PromptRequest.
Record t := {
  prompt : string;
  user_id : option string;
  max_tokens : option Z;
  temperature : option float
}.
End PromptRequest.

Module RouterResponse.
Record t := {
  response : string;
  model_used : string;
  difficulty : string;
  classification_confidence : float;
  tokens_used : Z;
  cost_usd : float;
  cost_saved_usd : float;
  latency_ms : float;
  request_id : nat
}.
End RouterResponse.

Module Breakdown.
Record t := {
  requests : Z;
  total_tokens : Z;
  total_cost_usd : float;
  avg_latency_ms : float
}.
End Breakdown.

Module StatsResponse.
Record t := {
  total_requests : nat;
  total_cost_usd : float;
  total_saved_usd : float;
  model_breakdown : Py.dict Breakdown.t;
  avg_latency_ms : float
}.
End StatsResponse.

(** [HTTPException(status_code, detail)], with [detail] as it is given
    to the constructor. *)
Record HTTPException := {
  status_code : Z;
  detail : option string
}.

(* ================================================================== *)
(** ** [app/main.py] *)

Module Main.

Import Py.

(** [startup_event]: [init_db] creates the tables that are missing and
    two lines are printed; nothing of the configuration is inspected.
    The result says whether the event raised. *)
Definition startup_event (settings : Config.Settings) (db : DB)
  : exception + DB := inr db.

(** The [except Exception] clause of [generate]: the error record is
    added and committed, then status 500 is raised.  [db] holds what
    the session holds when the clause is entered, so what was added or
    changed before the exception is committed with the error record. *)
Definition log_error (request : PromptRequest.t) (db : DB) (e : exception)
  : DB * (RouterResponse.t + HTTPException) :=
  let error_log := {|
    RequestLog.id := next_id (request_logs db);
    RequestLog.prompt := PromptRequest.prompt request;
    RequestLog.prompt_tokens := None;
    RequestLog.difficulty := "unknown";
    RequestLog.confidence := 0%float;
    RequestLog.selected_model := "error";
    RequestLog.response := Some ("Error: " ++ str_exception e);
    RequestLog.response_tokens := None;
    RequestLog.latency_ms := None;
    RequestLog.cost_usd := None;
    RequestLog.cost_saved_usd := None;
    RequestLog.user_id := PromptRequest.user_id request;
    RequestLog.status := error
  |} in
  ({| request_logs := (request_logs db ++ [error_log])%list;
      model_stats := model_stats db |},
   inr {| status_code := 500;
          detail := Some ("Internal error: " ++ str_exception e) |}).

(** Lines 106 to 123: the first row of [model_used] is updated in
    place, or a row is created when the query finds none.  The result
    is the table as the session holds it afterwards, and the exception
    that cut the update short, if any: the division raises when the
    incremented count is 0, after the three totals were assigned and
    before the average is.  A count comes from an integer column, whose
    values are within the range of [float], so its conversion is the
    plain rounding to binary64. *)
Fixpoint update_model_stats (stats : list ModelStats.t) (model_used : string)
         (tokens_used : Z) (actual_cost total_latency : float)
  : list ModelStats.t * option exception :=
  match stats with
  | [] =>
      ([{| ModelStats.model_name := model_used;
           ModelStats.total_requests := 1;
           ModelStats.total_tokens := tokens_used;
           ModelStats.total_cost_usd := actual_cost;
           ModelStats.avg_latency_ms := total_latency |}], None)
  | model_stat :: rest =>
      if String.eqb (ModelStats.model_name model_stat) model_used then
        let total_requests := (ModelStats.total_requests model_stat + 1)%Z in
        let assigned (avg_latency_ms : float) :=
          {| ModelStats.model_name := ModelStats.model_name model_stat;
             ModelStats.total_requests := total_requests;
             ModelStats.total_tokens :=
               (ModelStats.total_tokens model_stat + tokens_used)%Z;
             ModelStats.total_cost_usd :=
               (ModelStats.total_cost_usd model_stat + actual_cost)%float;
             ModelStats.avg_latency_ms := avg_latency_ms |} in
        if (total_requests =? 0)%Z then
          (assigned (ModelStats.avg_latency_ms model_stat) :: rest,
           Some ZeroDivisionError)
        else
          (assigned
             ((ModelStats.avg_latency_ms model_stat
               * float_of_Z (total_requests - 1) + total_latency)
              / float_of_Z total_requests)%float :: rest,
           None)
      else
        let '(rest', raised) :=
          update_model_stats rest model_used tokens_used
                             actual_cost total_latency in
        (model_stat :: rest', raised)
  end.

(** [generate] over a price table [costs]; [total_latency] is the time
    that the clock measures for the request, and [validation_text] the
    text of the error with which pydantic refuses [None] for the field
    [response: str] of [RouterResponse]. *)
Definition generate_with (costs : dict float) (validation_text : string)
           (settings : Config.Settings)
           (backend : ModelRouter.Backend) (total_latency : float)
           (request : PromptRequest.t) (db : DB)
  : DB * (RouterResponse.t + HTTPException) :=
  (* Step 1: Classify the prompt *)
  let classification := classify (PromptRequest.prompt request) in
  (* Step 2: Route to appropriate model *)
  let '(response_data, model_used) :=
    ModelRouter.route_and_generate settings backend
      (difficulty classification) (PromptRequest.prompt request)
      (PromptRequest.max_tokens request) (PromptRequest.temperature request) in
  match ModelRouter.status response_data with
  | error =>
      (* raised inside [try], passed on by [except HTTPException: raise] *)
      (db, inr {| status_code := 500;
                  detail := ModelRouter.response response_data |})
  | success =>
      (* Step 3: Calculate costs *)
      let tokens_used := ModelRouter.tokens_used response_data in
      match dict_get costs model_used with
      | None => log_error request db (KeyError model_used)
      | Some cost_per_token =>
          match float_of_int tokens_used with
          | None => log_error request db OverflowError
          | Some tokens =>
              let actual_cost := (tokens * cost_per_token)%float in
              match dict_get costs "gpt-4o" with
              | None => log_error request db (KeyError "gpt-4o")
              | Some gpt4o_price =>
                  let gpt4o_cost := (tokens * gpt4o_price)%float in
                  let cost_saved := (gpt4o_cost - actual_cost)%float in
                  (* Step 4: Log to database *)
                  let log_entry := {|
                    RequestLog.id := next_id (request_logs db);
                    RequestLog.prompt := PromptRequest.prompt request;
                    RequestLog.prompt_tokens := Some tokens_used;
                    RequestLog.difficulty :=
                      difficulty_name (difficulty classification);
                    RequestLog.confidence := confidence classification;
                    RequestLog.selected_model := model_used;
                    RequestLog.response := ModelRouter.response response_data;
                    RequestLog.response_tokens := Some tokens_used;
                    RequestLog.latency_ms := Some total_latency;
                    RequestLog.cost_usd := Some actual_cost;
                    RequestLog.cost_saved_usd := Some cost_saved;
                    RequestLog.user_id := PromptRequest.user_id request;
                    RequestLog.status := success
                  |} in
                  let '(stats, raised) :=
                    update_model_stats (model_stats db) model_used
                      tokens_used actual_cost total_latency in
                  let session :=
                    {| request_logs := (request_logs db ++ [log_entry])%list;
                       model_stats := stats |} in
                  match raised with
                  | Some e => log_error request session e
                  | None =>
                      (* committed; Step 5: Return response *)
                      match ModelRouter.response response_data with
                      | None =>
                          log_error request session
                                    (ValidationError validation_text)
                      | Some response =>
                          (session,
                           inl {|
                             RouterResponse.response := response;
                             RouterResponse.model_used := model_used;
                             RouterResponse.difficulty :=
                               difficulty_name (difficulty classification);
                             RouterResponse.classification_confidence :=
                               confidence classification;
                             RouterResponse.tokens_used := tokens_used;
                             RouterResponse.cost_usd := round actual_cost 6;
                             RouterResponse.cost_saved_usd :=
                               round cost_saved 6;
                             RouterResponse.latency_ms :=
                               round total_latency 2;
                             RouterResponse.request_id :=
                               RequestLog.id log_entry
                           |})
                      end
                  end
              end
          end
      end
  end.

(** [generate], with the price table of [app/config.py]. *)
Definition generate : string -> Config.Settings -> ModelRouter.Backend ->
                      float -> PromptRequest.t -> DB ->
                      DB * (RouterResponse.t + HTTPException) :=
  generate_with Config.MODEL_COSTS.

Definition is_success (log : RequestLog.t) : bool :=
  match RequestLog.status log with success => true | error => false end.

(** [get_stats]; [None] when summing a column meets NULL. *)
Definition get_stats (db : DB) : option StatsResponse.t :=
  let logs := filter is_success (request_logs db) in
  let model_stats := model_stats db in
  match logs with
  | [] =>
      Some {| StatsResponse.total_requests := 0;
              StatsResponse.total_cost_usd := 0;
              StatsResponse.total_saved_usd := 0;
              StatsResponse.model_breakdown := [];
              StatsResponse.avg_latency_ms := 0 |}
  | _ :: _ =>
      match sum_column (map RequestLog.cost_usd logs),
            sum_column (map RequestLog.cost_saved_usd logs),
            sum_column (map RequestLog.latency_ms logs) with
      | Some total_cost, Some total_saved, Some latency_sum =>
          let avg_latency :=
            (latency_sum / float_of_Z (Z.of_nat (List.length logs)))%float in
          let model_breakdown :=
            fold_left
              (fun d stat =>
                 dict_set d (ModelStats.model_name stat)
                   {| Breakdown.requests := ModelStats.total_requests stat;
                      Breakdown.total_tokens := ModelStats.total_tokens stat;
                      Breakdown.total_cost_usd :=
                        round (ModelStats.total_cost_usd stat) 4;
                      Breakdown.avg_latency_ms :=
                        round (ModelStats.avg_latency_ms stat) 2 |})
              model_stats [] in
          Some {| StatsResponse.total_requests := List.length logs;
                  StatsResponse.total_cost_usd := round total_cost 4;
                  StatsResponse.total_saved_usd := round total_saved 4;
                  StatsResponse.model_breakdown := model_breakdown;
                  StatsResponse.avg_latency_ms := round avg_latency 2 |}
      | _, _, _ => None
      end
  end.

End Main.

(* ================================================================== *)
(** ** Histories of aggregate updates *)

Module History.

(** One call of [update_model_stats]: backend, tokens, cost, latency;
    [record_one] is the table that the call leaves. *)
Record observation := {
  backend : string;
  tokens : Z;
  cost : float;
  latency : float
}.

Definition record_one (stats : list ModelStats.t) (o : observation)
  : list ModelStats.t :=
  fst (Main.update_model_stats stats (backend o) (tokens o) (cost o)
                               (latency o)).

Definition record_all (stats : list ModelStats.t) (h : list observation)
  : list ModelStats.t :=
  fold_left record_one h stats.

(** The latencies observed for backend [m], in order. *)
Definition latencies_of (m : string) (h : list observation) : list float :=
  map latency (filter (fun o => String.eqb (backend o) m) h).

(** The first row of backend [m], as the query of [generate] finds it. *)
Definition find_stat (m : string) (stats : list ModelStats.t)
  : option ModelStats.t :=
  find (fun st => String.eqb (ModelStats.model_name st) m) stats.

(** One step of the recurrence on the pair of the average and the
    count: [n] below is the count after the increment. *)
Definition average_step (state : float * Z) (new : float) : float * Z :=
  let '(avg, count) := state in
  let n := (count + 1)%Z in
  ((avg * Py.float_of_Z (n - 1) + new) / Py.float_of_Z n, n)%float.

(** The recurrence run over the latencies in order, in binary64; the
    first latency is stored as it is. *)
Definition running_average (l : list float) : float :=
  match l with
  | [] => 0%float
  | first :: rest => fst (fold_left average_step rest (first, 1%Z))
  end.

(** The exact value of a finite binary64 number, as a rational. *)
Definition exact (x : float) : Q :=
  match Prim2SF x with
  | S754_finite s m e =>
      ((if s then -(1) else 1) * inject_Z (Zpos m) * Qpower 2 e)%Q
  | _ => 0%Q
  end.







(** What the aggregate table knows of a history: a backend has a row
    exactly when it was observed, and the row holds the number of its
    latencies and the recurrence run over them. *)
Definition tracks (stats : list ModelStats.t) (h : list observation) : Prop :=
  forall m,
    match find_stat m stats with
    | None => latencies_of m h = []
    | Some r =>
        latencies_of m h <> []
        /\ ModelStats.total_requests r
           = Z.of_nat (List.length (latencies_of m h))
        /\ ModelStats.avg_latency_ms r = running_average (latencies_of m h)
    end.

End History.

(* ================================================================== *)
(** ** Inputs used in the examples *)

Module Examples.

Definition empty_db : DB := {| request_logs := []; model_stats := [] |}.

(** The first line of the text with which pydantic refuses a field of
    [RouterResponse]; the handler copies the text as it is. *)
Definition validation_text : string := "1 validation error for RouterResponse".

Definition hello : PromptRequest.t := {|
  PromptRequest.prompt := "hello";
  PromptRequest.user_id := None;
  PromptRequest.max_tokens := Some 1000%Z;
  PromptRequest.temperature := Some 0.7%float
|}.

(** A backend that answers every call with 100 tokens. *)
Definition ok_backend : ModelRouter.Backend :=
  fun _ _ _ _ =>
    {| ModelRouter.response := Some "Hi!";
       ModelRouter.tokens_used := 100;
       ModelRouter.latency_ms := 250;
       ModelRouter.status := success |}.

(** A backend that answers every call with a message without content. *)
Definition silent_backend : ModelRouter.Backend :=
  fun _ _ _ _ =>
    {| ModelRouter.response := None;
       ModelRouter.tokens_used := 100;
       ModelRouter.latency_ms := 250;
       ModelRouter.status := success |}.

(** A backend whose every call fails, as the clients report it. *)
Definition failing_backend : ModelRouter.Backend :=
  fun _ _ _ _ =>
    {| ModelRouter.response := Some "Error: timeout";
       ModelRouter.tokens_used := 0;
       ModelRouter.latency_ms := 60000;
       ModelRouter.status := error |}.

(** Settings whose medium tier names a model without a price. *)
Definition unpriced_settings : Config.Settings := {|
  Config.simple_model := "google/gemini-flash-1.5";
  Config.medium_model := "llama-3-8b";
  Config.complex_model := "anthropic/claude-3.5-sonnet"
|}.

(** Settings whose medium tier names a model with a quote in its name
    and without a price. *)
Definition quoted_settings : Config.Settings := {|
  Config.simple_model := "google/gemini-flash-1.5";
  Config.medium_model := "o'neil";
  Config.complex_model := "anthropic/claude-3.5-sonnet"
|}.

(** A price table that also has the baseline. *)
Definition costs_with_baseline : Py.dict float :=
  (Config.MODEL_COSTS ++ [("gpt-4o", (5.00 / 1000000)%float)])%list.

Definition error_row : RequestLog.t := {|
  RequestLog.id := 1;
  RequestLog.prompt := "hello";
  RequestLog.prompt_tokens := None;
  RequestLog.difficulty := "unknown";
  RequestLog.confidence := 0%float;
  RequestLog.selected_model := "error";
  RequestLog.response := Some "Error: 'gpt-4o'";
  RequestLog.response_tokens := None;
  RequestLog.latency_ms := None;
  RequestLog.cost_usd := None;
  RequestLog.cost_saved_usd := None;
  RequestLog.user_id := None;
  RequestLog.status := error
|}.

(** What the request for "hello" leaves and returns when the backend
    answers with 100 tokens in 250 milliseconds and the price table has
    the baseline of [costs_with_baseline]. *)
Definition hello_row : RequestLog.t := {|
  RequestLog.id := 1;
  RequestLog.prompt := "hello";
  RequestLog.prompt_tokens := Some 100%Z;
  RequestLog.difficulty := "medium";
  RequestLog.confidence := 0.6%float;
  RequestLog.selected_model := "anthropic/claude-3-haiku";
  RequestLog.response := Some "Hi!";
  RequestLog.response_tokens := Some 100%Z;
  RequestLog.latency_ms := Some 250%float;
  RequestLog.cost_usd := Some (100 * (1.00 / 1000000))%float;
  RequestLog.cost_saved_usd :=
    Some (100 * (5.00 / 1000000) - 100 * (1.00 / 1000000))%float;
  RequestLog.user_id := None;
  RequestLog.status := success
|}.

Definition hello_stats : ModelStats.t := {|
  ModelStats.model_name := "anthropic/claude-3-haiku";
  ModelStats.total_requests := 1;
  ModelStats.total_tokens := 100;
  ModelStats.total_cost_usd := (100 * (1.00 / 1000000))%float;
  ModelStats.avg_latency_ms := 250
|}.

Definition hello_response : RouterResponse.t := {|
  RouterResponse.response := "Hi!";
  RouterResponse.model_used := "anthropic/claude-3-haiku";
  RouterResponse.difficulty := "medium";
  RouterResponse.classification_confidence := 0.6;
  RouterResponse.tokens_used := 100;
  RouterResponse.cost_usd := 0.0001;
  RouterResponse.cost_saved_usd := 0.0004;
  RouterResponse.latency_ms := 250;
  RouterResponse.request_id := 1
|}.

Definition haiku_row : ModelStats.t := {|
  ModelStats.model_name := "anthropic/claude-3-haiku";
  ModelStats.total_requests := 2;
  ModelStats.total_tokens := 300;
  ModelStats.total_cost_usd := 0.0003;
  ModelStats.avg_latency_ms := 120
|}.




End Examples.

(* ================================================================== *)
(** ** [OpenAIClient] and [ModelRouter.get_client] *)

Module Clients.

(** What [chat.completions.create] gives back, as far as [generate]
    reads it: the choices with their messages and the usage block.  The
    provider is free to leave any of them out, which Python sees as
    [None]. *)
Record message := { content : option string }.
Record choice := { choice_message : option message }.
Record usage_block := { total_tokens : Z }.
Record completion := {
  choices : option (list choice);
  usage : option usage_block
}.

(** The provider: model, prompt, [max_tokens] and [temperature] to a
    completion, or [inl msg] when the call raises an exception [e] with
    [str(e) = msg]. *)
Definition Provider : Type :=
  string -> string -> option Z -> option float -> string + completion.

(** [OpenAIClient.generate] for a client whose [model] attribute is
    [model]; [elapsed_ms] is the time the clock measures.  Every
    exception inside the [try] block ends in the error dictionary: the
    call that raises, [choices] that is [None] or empty, and a first
    choice without a message, with the texts that CPython gives. *)
Definition generate (provider : Provider) (elapsed_ms : float)
           (model prompt : string) (max_tokens : option Z)
           (temperature : option float)
  : ModelRouter.response_data :=
  let failed (msg : string) :=
    {| ModelRouter.response := Some ("Error: " ++ msg);
       ModelRouter.tokens_used := 0;
       ModelRouter.latency_ms := elapsed_ms;
       ModelRouter.status := error |} in
  match provider model prompt max_tokens temperature with
  | inl msg => failed msg
  | inr response =>
      match choices response with
      | None => failed "'NoneType' object is not subscriptable"
      | Some [] => failed "list index out of range"
      | Some (first :: _) =>
          match choice_message first with
          | None => failed "'NoneType' object has no attribute 'content'"
          | Some message =>
              {| ModelRouter.response := content message;
                 ModelRouter.tokens_used :=
                   match usage response with
                   | Some usage => total_tokens usage
                   | None => 100%Z
                   end;
                 ModelRouter.latency_ms := elapsed_ms;
                 ModelRouter.status := success |}
          end
      end
  end.

(** [get_client(model_name).generate]: every model goes through an
    [OpenAIClient] whose [model] is overwritten with the routed name. *)
Definition backend (provider : Provider) (elapsed_ms : float) : ModelRouter.Backend :=
  fun model_name prompt max_tokens temperature =>
    generate provider elapsed_ms model_name prompt max_tokens temperature.

End Clients.

(* ================================================================== *)
(** ** Sequences of requests *)

Module Sessions.

(** One call of the handler: the backend as it behaves during the call,
    the measured latency and the request. *)
Record call := {
  call_backend : ModelRouter.Backend;
  call_latency : float;
  call_request : PromptRequest.t
}.

Definition serve (costs : Py.dict float) (validation_text : string)
           (settings : Config.Settings) (db : DB) (c : call) : DB :=
  fst (Main.generate_with costs validation_text settings (call_backend c)
                          (call_latency c) (call_request c) db).

(** The database after the calls, one after the other. *)
Definition serve_all (costs : Py.dict float) (validation_text : string)
           (settings : Config.Settings) (calls : list call) (db : DB) : DB :=
  fold_left (serve costs validation_text settings) calls db.

(** What a row of the request log says of the aggregate update that was
    made with it; an error row says nothing. *)
Definition observation_of (log : RequestLog.t) : list History.observation :=
  match RequestLog.status log, RequestLog.response_tokens log,
        RequestLog.cost_usd log, RequestLog.latency_ms log with
  | success, Some t, Some c, Some l =>
      [{| History.backend := RequestLog.selected_model log;
          History.tokens := t; History.cost := c; History.latency := l |}]
  | _, _, _, _ => []
  end.

Definition history_of (logs : list RequestLog.t) : list History.observation :=
  flat_map observation_of logs.

(** A successful row has its three numeric columns filled. *)
Definition complete (log : RequestLog.t) : bool :=
  match RequestLog.status log with
  | error => true
  | success =>
      match RequestLog.cost_usd log, RequestLog.cost_saved_usd log,
            RequestLog.latency_ms log with
      | Some _, Some _, Some _ => true
      | _, _, _ => false
      end
  end.

Definition tokens_of (m : string) (h : list History.observation) : list Z :=
  map History.tokens (filter (fun o => String.eqb (History.backend o) m) h).

Definition costs_of (m : string) (h : list History.observation) : list float :=
  map History.cost (filter (fun o => String.eqb (History.backend o) m) h).

Definition Zsum (l : list Z) : Z := fold_right Z.add 0%Z l.

(** The costs added in order, in binary64: the first is stored as it
    is, each later one is added to the total. *)
Definition running_cost (l : list float) : float :=
  match l with
  | [] => 0%float
  | first :: rest => fold_left PrimFloat.add rest first
  end.

(** The entry of [model_breakdown] that [get_stats] builds from a row. *)
Definition breakdown_of (stat : ModelStats.t) : Breakdown.t :=
  {| Breakdown.requests := ModelStats.total_requests stat;
     Breakdown.total_tokens := ModelStats.total_tokens stat;
     Breakdown.total_cost_usd := Py.round (ModelStats.total_cost_usd stat) 4;
     Breakdown.avg_latency_ms := Py.round (ModelStats.avg_latency_ms stat) 2 |}.

(** What holds of the database after any sequence of calls on an empty
    one: the successful rows are complete, and the aggregate table is
    the replay of the successful rows. *)
Definition served_well (db : DB) : Prop :=
  forallb complete (request_logs db) = true
  /\ model_stats db = History.record_all [] (history_of (request_logs db)).

End Sessions.

(* ================================================================== *)
(** ** The tests of a prompt *)

Module Tests.

(** The tests that [score_and_reasoning] makes on a prompt, in the shape
    of [Signals.tests]. *)
Definition test_of (prompt : string)
  : bool * bool * nat * nat * (bool * bool * bool * bool) :=
  ((word_count prompt <? 10)%nat, (50 <? word_count prompt)%nat,
   complex_matches prompt, simple_matches prompt,
   (_contains_code prompt,
    (question_marks prompt =? 1)%nat && (word_count prompt <? 15)%nat,
    (2 <? question_marks prompt)%nat,
    reasoning_signal prompt)).

Definition tier_of_test
           (t : bool * bool * nat * nat * (bool * bool * bool * bool))
  : Difficulty :=
  fst (determine_difficulty (score_of_test t)).

Definition is_simple (d : Difficulty) : bool :=
  match d with simple => true | _ => false end.

Definition is_complex (d : Difficulty) : bool :=
  match d with complex => true | _ => false end.

(** A function of the eight tests, applied to a test of [Signals.tests]. *)
Definition uncurry8 {A : Type}
  (f : bool -> bool -> nat -> nat -> bool -> bool -> bool -> bool -> A)
  (t : bool * bool * nat * nat * (bool * bool * bool * bool)) : A :=
  let '(short, long, cm, sm, (code, single, multi, rs)) := t in
  f short long cm sm code single multi rs.

(** The tier that [determine_difficulty] gives to the score of the
    eight tests. *)
Definition tier_of (short long : bool) (cm sm : nat)
           (code single multi rs : bool) : Difficulty :=
  fst (determine_difficulty (score_of short long cm sm code single multi rs)).

(** The constraint [Field(ge=0, le=1)] on the confidence of
    [ClassificationResult]. *)
Definition confidence_field_ok (c : float) : bool :=
  ((0 <=? c) && (c <=? 1))%float.

End Tests.

(* ================================================================== *)
(** ** Lemmas on the score *)

Lemma complexity_score_eq (prompt : string) :
  complexity_score prompt =
  score_of (word_count prompt <? 10)%nat (50 <? word_count prompt)%nat
           (complex_matches prompt) (simple_matches prompt)
           (_contains_code prompt)
           ((question_marks prompt =? 1)%nat && (word_count prompt <? 15)%nat)
           (2 <? question_marks prompt)%nat
           (reasoning_signal prompt).
Proof.
  unfold complexity_score, score_and_reasoning, score_of, reasoning_signal,
    word_count, complex_matches, simple_matches, question_marks.
  destruct (_ <? 10)%nat; [| destruct (50 <? _)%nat];
    (destruct (_ <? count_matches complex_keywords _)%nat;
     [| destruct (0 <? _)%nat]);
    destruct (_contains_code prompt);
    (destruct (_ && _); [| destruct (2 <? _)%nat]);
    destruct (existsb _ _); reflexivity.
Qed.

Lemma count_matches_le (kws : list string) (s : string) :
  (count_matches kws s <= List.length kws)%nat.
Proof. unfold count_matches. apply filter_length_le. Qed.

Lemma in_bools (b : bool) : In b bools.
Proof. destruct b; simpl; auto. Qed.

Lemma score_reachable (prompt : string) :
  In (complexity_score prompt) reachable_scores.
Proof.
  rewrite complexity_score_eq. unfold reachable_scores.
  match goal with
  | |- In (score_of ?a ?b ?c ?d ?e ?f ?g ?h) _ =>
      change (score_of a b c d e f g h)
        with (score_of_test (a, b, c, d, (e, f, g, h)))
  end.
  apply in_map. unfold tests.
  repeat (apply in_prod); try apply in_bools.
  - apply in_seq. pose proof (count_matches_le complex_keywords
                                (PyStr.lower prompt)).
    unfold complex_matches. lia.
  - apply in_seq. pose proof (count_matches_le simple_keywords
                                (PyStr.lower prompt)).
    unfold simple_matches. lia.
Qed.

(** Two functions of the score that agree on every reachable score agree
    on the score of every prompt. *)
Lemma on_reachable {A : Type} (f g : float -> A) :
  map f reachable_scores = map g reachable_scores ->
  forall prompt, f (complexity_score prompt) = g (complexity_score prompt).
Proof.
  intros H prompt. pose proof (score_reachable prompt) as Hin.
  revert H Hin. generalize reachable_scores.
  induction l as [| x l IH]; simpl; intros H Hin; [contradiction |].
  injection H as Hx Hl. destruct Hin as [<- | Hin]; auto.
Qed.

Lemma classify_eq (prompt : string) :
  (difficulty (classify prompt), confidence (classify prompt)) =
  determine_difficulty (complexity_score prompt).
Proof.
  unfold classify, _classify_rule_based, complexity_score.
  destruct (score_and_reasoning prompt) as [s r]. simpl.
  destruct (determine_difficulty s). reflexivity.
Qed.

(* ================================================================== *)
(** ** The prompts of [test_classifier.py] and a few patterns *)

Example capital_of_france :
  classify "What is the capital of France?"
  = {| difficulty := simple; confidence := 0.9%float;
       reasoning := "short prompt (6 words) | simple keywords: 2 | single simple question" |}.
Proof. vm_compute. reflexivity. Qed.

Example summarize_in_3_sentences :
  classify "Summarize this in 3 sentences"
  = {| difficulty := simple; confidence := 0.9%float;
       reasoning := "short prompt (5 words) | simple keywords: 1" |}.
Proof. vm_compute. reflexivity. Qed.

Example quantum_vs_classical :
  classify "Explain quantum computing vs classical computing"
  = {| difficulty := medium; confidence := 0.6%float;
       reasoning := "short prompt (6 words) | requires reasoning" |}.
Proof. vm_compute. reflexivity. Qed.

Example rest_api_trace :
  reasoning (classify "Write a complete REST API with authentication")
  = "short prompt (7 words) | complex keywords: 1".
Proof. vm_compute. reflexivity. Qed.

Example code_patterns :
  map _contains_code
      ["```print(1)```"; "def  foo_1 (x): pass"; "function f(a) {}";
       "class Foo"; "then import os"; "reimport os"; "<b>bold</b>";
       "a < b and b > c"; "Def foo(x)"]
  = [true; true; true; true; true; false; true; false; false].
Proof. vm_compute. reflexivity. Qed.

Example split_on_whitespace :
  PyStr.split "  two   words " = ["two"; "words"].
Proof. reflexivity. Qed.

(* ================================================================== *)
(** ** The tier decision *)

Lemma determine_difficulty_spec_on_reachable :
  map determine_difficulty reachable_scores =
  map tier_decision_spec reachable_scores.
Proof. vm_compute. reflexivity. Qed.

Lemma thresholds_exclusive_on_reachable :
  map (fun S => (S <? -0.3)%float && (0.5 <? S)%float) reachable_scores =
  map (fun _ => false) reachable_scores.
Proof. vm_compute. reflexivity. Qed.

Lemma bounds_on_reachable :
  map (fun S => confidence_in_bounds (snd (determine_difficulty S)))
      reachable_scores =
  map (fun _ => true) reachable_scores.
Proof. vm_compute. reflexivity. Qed.

Lemma determine_difficulty_medium (S c : float) :
  determine_difficulty S = (medium, c) -> c = 0.6%float.
Proof.
  unfold determine_difficulty.
  destruct (S <? -0.3)%float; [discriminate |].
  destruct (0.5 <? S)%float; [discriminate |].
  intros H. injection H as <-. reflexivity.
Qed.

(** C3: for every prompt the tier and the confidence are the ones the
    specification derives from the final score S (simple with
    min(0.9, 0.7 + |S|) when S < -0.3, complex with min(0.9, 0.65 + 0.3*S)
    when S > 0.5, medium with 0.6 otherwise; the two tests never hold
    together), and the confidence is in [0, 0.9] for simple and complex
    and is 0.6 for medium. *)
Theorem tier_and_confidence_from_score (prompt : string) :
  let S := complexity_score prompt in
  let r := classify prompt in
  (difficulty r, confidence r) = tier_decision_spec S
  /\ (S <? -0.3)%float && (0.5 <? S)%float = false
  /\ match difficulty r with
     | medium => confidence r = 0.6%float
     | _ => (0 <=? confidence r)%float = true
            /\ (confidence r <=? 0.9)%float = true
     end.
Proof.
  intros S r. subst S r.
  pose proof (classify_eq prompt) as Hc.
  pose proof (on_reachable _ _ determine_difficulty_spec_on_reachable prompt) as Hs.
  pose proof (on_reachable _ _ thresholds_exclusive_on_reachable prompt) as Hx.
  pose proof (on_reachable _ _ bounds_on_reachable prompt) as Hb.
  simpl in Hx, Hb. rewrite <- Hc in Hb. simpl in Hb.
  split; [congruence |]. split; [exact Hx |].
  unfold confidence_in_bounds in Hb. apply andb_prop in Hb.
  destruct (difficulty (classify prompt)) eqn:Hd; try exact Hb.
  symmetry in Hc. apply determine_difficulty_medium in Hc. exact Hc.
Qed.

(** C9: whenever the classifier returns simple, 0.7 + |S| exceeds 0.9 and
    the confidence is exactly 0.9. *)
Theorem simple_confidence_is_clamped (prompt : string) :
  difficulty (classify prompt) = simple ->
  (0.9 <? 0.7 + abs (complexity_score prompt))%float = true
  /\ confidence (classify prompt) = 0.9%float.
Proof.
  intros Hd.
  assert (H1 : map (fun S => if (S <? -0.3)%float
                             then (0.9 <? 0.7 + abs S)%float else true)
                   reachable_scores = map (fun _ => true) reachable_scores)
    by (vm_compute; reflexivity).
  assert (H2 : map (fun S => if (S <? -0.3)%float
                             then snd (determine_difficulty S) else 0.9%float)
                   reachable_scores = map (fun _ => 0.9%float) reachable_scores)
    by (vm_compute; reflexivity).
  pose proof (on_reachable _ _ H1 prompt) as G1.
  pose proof (on_reachable _ _ H2 prompt) as G2.
  pose proof (classify_eq prompt) as Hc. simpl in G1, G2.
  rewrite Hd in Hc. rewrite <- Hc in G2.
  unfold determine_difficulty in Hc.
  destruct (complexity_score prompt <? -0.3)%float.
  - split; [exact G1 | exact G2].
  - destruct (0.5 <? complexity_score prompt)%float; discriminate.
Qed.

Lemma simple_confidence_is_clamped_witness :
  (0.9 <? 0.7 + abs (complexity_score "What is the capital of France?"))%float
  = true
  /\ confidence (classify "What is the capital of France?") = 0.9%float.
Proof. apply simple_confidence_is_clamped. vm_compute. reflexivity. Defined.

(** C4 (as the code behaves): a prompt of fewer than 10 words that
    triggers no keyword, code, question or reasoning signal scores
    exactly -0.3, which is not below -0.3: it is classified medium with
    confidence 0.6. *)
Theorem short_plain_prompt_is_medium (prompt : string) :
  (word_count prompt < 10)%nat ->
  keyword_signal prompt = false ->
  code_signal prompt = false ->
  question_signal prompt = false ->
  reasoning_signal prompt = false ->
  complexity_score prompt = (-0.3)%float
  /\ (complexity_score prompt <? -0.3)%float = false
  /\ difficulty (classify prompt) = medium
  /\ confidence (classify prompt) = 0.6%float.
Proof.
  intros Hw Hk Hcode Hq Hr.
  unfold keyword_signal in Hk. apply orb_false_elim in Hk as [Hk1 Hk2].
  unfold question_signal in Hq. apply orb_false_elim in Hq as [Hq1 Hq2].
  unfold code_signal in Hcode.
  apply Nat.ltb_lt in Hw.
  assert (Hs : complexity_score prompt = (-0.3)%float).
  { rewrite complexity_score_eq, Hw, Hcode, Hq1, Hq2, Hr.
    unfold score_of. rewrite Hk1, Hk2. reflexivity. }
  pose proof (classify_eq prompt) as Hc. rewrite Hs in Hc.
  assert (Hd : determine_difficulty (-0.3)%float = (medium, 0.6%float))
    by (vm_compute; reflexivity).
  rewrite Hd in Hc. injection Hc as Hc1 Hc2.
  rewrite Hs. split; [reflexivity |]. split; [reflexivity |].
  split; assumption.
Qed.

Lemma short_plain_prompt_is_medium_witness :
  complexity_score "hello" = (-0.3)%float
  /\ (complexity_score "hello" <? -0.3)%float = false
  /\ difficulty (classify "hello") = medium
  /\ confidence (classify "hello") = 0.6%float.
Proof.
  apply short_plain_prompt_is_medium; vm_compute; try reflexivity; lia.
Defined.

(** C4, as stated, fails: "hello" has one word and triggers no signal,
    and is not classified simple. *)
Lemma short_plain_prompt_not_simple :
  (word_count "hello" < 10)%nat
  /\ keyword_signal "hello" = false /\ code_signal "hello" = false
  /\ question_signal "hello" = false /\ reasoning_signal "hello" = false
  /\ difficulty (classify "hello") <> simple.
Proof.
  vm_compute. repeat split; try reflexivity; try lia. discriminate.
Qed.

(** C5 (as the code behaves): the prompt of the example scores
    -0.3 + 0.4 and is classified [medium] with confidence 0.6. *)
Theorem rest_api_prompt_is_medium :
  let r := classify "Write a complete REST API with authentication" in
  difficulty r = medium /\ confidence r = 0.6%float.
Proof. vm_compute. split; reflexivity. Qed.

(** C5, as stated, fails: the classifier does not return [complex] for
    the prompt of the example. *)
Lemma rest_api_prompt_not_complex :
  difficulty (classify "Write a complete REST API with authentication") <> complex.
Proof. vm_compute. discriminate. Qed.

(* ================================================================== *)
(** ** Letter case *)

Lemma isspace_lower_char (c : ascii) :
  PyStr.isspace (PyStr.lower_char c) = PyStr.isspace c.
Proof.
  destruct c as [b0 b1 b2 b3 b4 b5 b6 b7].
  destruct b0, b1, b2, b3, b4, b5, b6, b7; reflexivity.
Qed.

Lemma question_mark_lower_char (c : ascii) :
  Ascii.eqb (PyStr.lower_char c) "?"%char = Ascii.eqb c "?"%char.
Proof.
  destruct c as [b0 b1 b2 b3 b4 b5 b6 b7].
  destruct b0, b1, b2, b3, b4, b5, b6, b7; reflexivity.
Qed.

Lemma is_empty_snoc (cur : string) (c : ascii) :
  PyStr.is_empty (cur ++ String c EmptyString) = false.
Proof. destruct cur; reflexivity. Qed.

Lemma split_from_length (s : string) :
  forall cur, List.length (PyStr.split_from s cur)
              = words_from s (negb (PyStr.is_empty cur)).
Proof.
  induction s as [| c s IH]; intros cur; simpl.
  - destruct (PyStr.is_empty cur); reflexivity.
  - destruct (PyStr.isspace c).
    + destruct (PyStr.is_empty cur); simpl; rewrite IH; reflexivity.
    + rewrite IH, is_empty_snoc. reflexivity.
Qed.

Lemma words_from_lower (s : string) :
  forall b, words_from (PyStr.lower s) b = words_from s b.
Proof.
  induction s as [| c s IH]; intros b; simpl; [reflexivity |].
  rewrite isspace_lower_char, !IH. reflexivity.
Qed.

Lemma word_count_lower (s : string) :
  word_count (PyStr.lower s) = word_count s.
Proof.
  unfold word_count, PyStr.split. rewrite !split_from_length.
  apply words_from_lower.
Qed.

Lemma question_marks_lower (s : string) :
  question_marks (PyStr.lower s) = question_marks s.
Proof.
  unfold question_marks.
  induction s as [| c s IH]; simpl; [reflexivity |].
  rewrite question_mark_lower_char, IH. reflexivity.
Qed.

Lemma score_and_reasoning_ext (p q : string) :
  PyStr.lower p = PyStr.lower q ->
  word_count p = word_count q ->
  question_marks p = question_marks q ->
  _contains_code p = _contains_code q ->
  score_and_reasoning p = score_and_reasoning q.
Proof.
  unfold word_count, question_marks, score_and_reasoning.
  intros -> -> -> ->. reflexivity.
Qed.

(** C8 (as the code behaves): the keyword and reasoning signals are read
    off the lowercased prompt, and the word count and the number of
    question marks do not depend on letter case, so all of them agree on
    two prompts that differ only in letter case; the code patterns are
    matched against the prompt as typed, and when that signal agrees too
    the whole classification is the same. *)
Theorem signals_under_case_change (p q : string) :
  case_variant p q ->
  complex_matches p = complex_matches q
  /\ simple_matches p = simple_matches q
  /\ reasoning_signal p = reasoning_signal q
  /\ word_count p = word_count q
  /\ question_marks p = question_marks q
  /\ (code_signal p = code_signal q -> classify p = classify q).
Proof.
  unfold case_variant. intros H.
  assert (Hw : word_count p = word_count q)
    by (rewrite <- (word_count_lower p), <- (word_count_lower q), H; reflexivity).
  assert (Hq : question_marks p = question_marks q)
    by (rewrite <- (question_marks_lower p), <- (question_marks_lower q), H;
        reflexivity).
  unfold complex_matches, simple_matches, reasoning_signal. rewrite H.
  repeat split; try assumption.
  unfold code_signal, classify, _classify_rule_based. intros Hcode.
  rewrite (score_and_reasoning_ext p q H Hw Hq Hcode). reflexivity.
Qed.

Lemma signals_under_case_change_witness :
  complex_matches "Write A Story" = complex_matches "write a story"
  /\ simple_matches "Write A Story" = simple_matches "write a story"
  /\ reasoning_signal "Write A Story" = reasoning_signal "write a story"
  /\ word_count "Write A Story" = word_count "write a story"
  /\ question_marks "Write A Story" = question_marks "write a story"
  /\ (code_signal "Write A Story" = code_signal "write a story" ->
      classify "Write A Story" = classify "write a story").
Proof. apply signals_under_case_change. vm_compute. reflexivity. Defined.

(** C8, as stated, fails: the two prompts differ only in letter case, the
    code signal fires on the first alone, and the tiers differ. *)
Lemma code_signal_is_case_sensitive :
  let p := "please write a function like this one here: def add(a, b): return a + b" in
  let q := "PLEASE WRITE A FUNCTION LIKE THIS ONE HERE: DEF ADD(A, B): RETURN A + B" in
  case_variant p q
  /\ code_signal p = true /\ code_signal q = false
  /\ difficulty (classify p) = complex /\ difficulty (classify q) = medium.
Proof. vm_compute. repeat split; reflexivity. Qed.

(* ================================================================== *)
(** ** Numbers and texts as Python prints and rounds them *)

Example repr_of_names :
  map Py.repr ["gpt-4o"; "o'neil"; "a\b"]
  = ["'gpt-4o'";
     String Py.dquote ("o'neil" ++ String Py.dquote EmptyString);
     "'a\\b'"].
Proof. reflexivity. Qed.

Example rounding_of_amounts :
  map (fun x => Py.round x 2) [2.675; 0.125; 123.456; -0.001]%float
  = [2.67; 0.12; 123.46; -0]%float
  /\ Py.round 2.5e-05 6 = 2.5e-05%float
  /\ Py.round (5 * (0.10 / 1000000)) 6 = 1e-06%float.
Proof. vm_compute. repeat split. Qed.

Example conversion_of_integers :
  Py.float_of_int 100 = Some 100%float
  /\ Py.float_of_int 9007199254740993 = Some 9007199254740992%float
  /\ Py.float_of_int (10 ^ 400) = None.
Proof. vm_compute. repeat split. Qed.

(* ================================================================== *)
(** ** The request handler *)

Lemma baseline_price_missing : Py.dict_get Config.MODEL_COSTS "gpt-4o" = None.
Proof. reflexivity. Qed.

(** With the price table of [app/config.py] no request is answered with
    a [RouterResponse]. *)
Lemma generate_always_raises validation_text settings backend total_latency
      request db :
  exists e, snd (Main.generate validation_text settings backend total_latency
                               request db) = inr e.
Proof.
  unfold Main.generate, Main.generate_with, ModelRouter.route_and_generate.
  destruct (ModelRouter.status _).
  - destruct (Py.dict_get Config.MODEL_COSTS _).
    + destruct (Py.float_of_int _).
      * rewrite baseline_price_missing. simpl. eauto.
      * simpl. eauto.
    + simpl. eauto.
  - simpl. eauto.
Qed.

(** C1 (the code at a successful outcome): the backend answers "hello"
    with 100 tokens; the lookup of the baseline price raises
    [KeyError], so no saving is computed or returned: an error record is
    stored and the caller gets status 500. *)
Theorem successful_outcome_hits_missing_baseline (validation_text : string) :
  Main.generate validation_text Config.default_settings Examples.ok_backend
                250 Examples.hello Examples.empty_db
  = ({| request_logs := [Examples.error_row]; model_stats := [] |},
     inr {| status_code := 500;
            detail := Some "Internal error: 'gpt-4o'" |}).
Proof. reflexivity. Qed.

(** C2 (the code at a failing backend): when the backend reports an
    error the handler raises status 500 with the backend's message and
    leaves the tables as they were: no record of the attempt is stored. *)
Theorem backend_error_is_not_recorded
        validation_text settings backend total_latency request db :
  let model := Config.DIFFICULTY_TO_MODEL settings
                 (difficulty (classify (PromptRequest.prompt request))) in
  let out := backend model (PromptRequest.prompt request)
               (PromptRequest.max_tokens request)
               (PromptRequest.temperature request) in
  ModelRouter.status out = error ->
  Main.generate validation_text settings backend total_latency request db
  = (db, inr {| status_code := 500; detail := ModelRouter.response out |}).
Proof.
  intros model out He.
  unfold Main.generate, Main.generate_with, ModelRouter.route_and_generate.
  fold model. fold out. rewrite He. reflexivity.
Qed.

Lemma backend_error_is_not_recorded_witness :
  Main.generate Examples.validation_text
                Config.default_settings Examples.failing_backend 60000
                Examples.hello Examples.empty_db
  = (Examples.empty_db,
     inr {| status_code := 500; detail := Some "Error: timeout" |}).
Proof.
  apply (backend_error_is_not_recorded
           Examples.validation_text Config.default_settings
           Examples.failing_backend 60000 Examples.hello Examples.empty_db).
  reflexivity.
Defined.

(** C6 (as the code behaves): the startup event completes for every
    configuration, and a tier whose model has no entry in the price
    table is met only when a request is routed to it: once the backend
    has answered, the lookup raises, an error record with every numeric
    column NULL is stored and the request fails with status 500, its
    detail naming the model as [repr] prints it. *)
Theorem missing_price_surfaces_per_request
        validation_text settings backend total_latency request db :
  let model := Config.DIFFICULTY_TO_MODEL settings
                 (difficulty (classify (PromptRequest.prompt request))) in
  let out := backend model (PromptRequest.prompt request)
               (PromptRequest.max_tokens request)
               (PromptRequest.temperature request) in
  Py.dict_get Config.MODEL_COSTS model = None ->
  ModelRouter.status out = success ->
  Main.startup_event settings db = inr db
  /\ exists log,
      Main.generate validation_text settings backend total_latency request db
      = ({| request_logs := (request_logs db ++ [log])%list;
            model_stats := model_stats db |},
         inr {| status_code := 500;
                detail := Some ("Internal error: " ++ Py.repr model) |})
      /\ RequestLog.status log = error
      /\ RequestLog.response log = Some ("Error: " ++ Py.repr model)
      /\ RequestLog.cost_usd log = None
      /\ RequestLog.cost_saved_usd log = None
      /\ RequestLog.latency_ms log = None
      /\ RequestLog.prompt_tokens log = None
      /\ RequestLog.response_tokens log = None.
Proof.
  intros model out Hm Hs. split; [reflexivity |].
  unfold Main.generate, Main.generate_with, ModelRouter.route_and_generate.
  fold model. fold out. rewrite Hs, Hm. unfold Main.log_error.
  eexists. split; [reflexivity |]. repeat split.
Qed.

Lemma missing_price_surfaces_per_request_witness :
  Main.startup_event Examples.quoted_settings Examples.empty_db
  = inr Examples.empty_db
  /\ exists log,
      Main.generate Examples.validation_text
                    Examples.quoted_settings Examples.ok_backend 250
                    Examples.hello Examples.empty_db
      = ({| request_logs := (request_logs Examples.empty_db ++ [log])%list;
            model_stats := model_stats Examples.empty_db |},
         inr {| status_code := 500;
                detail := Some ("Internal error: " ++ Py.repr "o'neil") |})
      /\ RequestLog.status log = error
      /\ RequestLog.response log = Some ("Error: " ++ Py.repr "o'neil")
      /\ RequestLog.cost_usd log = None
      /\ RequestLog.cost_saved_usd log = None
      /\ RequestLog.latency_ms log = None
      /\ RequestLog.prompt_tokens log = None
      /\ RequestLog.response_tokens log = None.
Proof.
  apply (missing_price_surfaces_per_request
           Examples.validation_text Examples.quoted_settings
           Examples.ok_backend 250 Examples.hello Examples.empty_db);
    reflexivity.
Defined.

(** C6, as stated, fails: with a medium tier that has no price the
    startup event completes, and the request for "hello" then fails on
    the missing entry. *)
Lemma missing_price_not_caught_at_startup :
  Py.dict_get Config.MODEL_COSTS
    (Config.medium_model Examples.unpriced_settings) = None
  /\ Main.startup_event Examples.unpriced_settings Examples.empty_db
     = inr Examples.empty_db
  /\ snd (Main.generate Examples.validation_text Examples.unpriced_settings
                        Examples.ok_backend 250
                        Examples.hello Examples.empty_db)
     = inr {| status_code := 500;
              detail := Some "Internal error: 'llama-3-8b'" |}.
Proof. repeat split; reflexivity. Qed.

(** C10: without a successful record the statistics are all zero and the
    breakdown is empty, whatever the aggregate table holds. *)
Theorem get_stats_without_success (db : DB) :
  filter Main.is_success (request_logs db) = [] ->
  Main.get_stats db
  = Some {| StatsResponse.total_requests := 0;
            StatsResponse.total_cost_usd := 0;
            StatsResponse.total_saved_usd := 0;
            StatsResponse.model_breakdown := [];
            StatsResponse.avg_latency_ms := 0 |}.
Proof. intros H. unfold Main.get_stats. rewrite H. reflexivity. Qed.

Lemma get_stats_without_success_witness :
  Main.get_stats {| request_logs := [Examples.error_row];
                    model_stats := [Examples.haiku_row] |}
  = Some {| StatsResponse.total_requests := 0;
            StatsResponse.total_cost_usd := 0;
            StatsResponse.total_saved_usd := 0;
            StatsResponse.model_breakdown := [];
            StatsResponse.avg_latency_ms := 0 |}.
Proof.
  apply (get_stats_without_success
           {| request_logs := [Examples.error_row];
              model_stats := [Examples.haiku_row] |}).
  reflexivity.
Defined.


(* ================================================================== *)
(** ** The running average *)

Section RunningAverage.

Import History.

(** The row that the query finds after an update of backend [m]. *)
Lemma find_stat_update_same stats m tok c lat :
  find_stat m (fst (Main.update_model_stats stats m tok c lat))
  = match find_stat m stats with
    | Some r =>
        Some {| ModelStats.model_name := ModelStats.model_name r;
                ModelStats.total_requests := ModelStats.total_requests r + 1;
                ModelStats.total_tokens := ModelStats.total_tokens r + tok;
                ModelStats.total_cost_usd :=
                  (ModelStats.total_cost_usd r + c)%float;
                ModelStats.avg_latency_ms :=
                  if (ModelStats.total_requests r + 1 =? 0)%Z then
                    ModelStats.avg_latency_ms r
                  else
                    ((ModelStats.avg_latency_ms r
                      * Py.float_of_Z (ModelStats.total_requests r + 1 - 1)
                      + lat)
                     / Py.float_of_Z (ModelStats.total_requests r + 1))%float |}
    | None =>
        Some {| ModelStats.model_name := m;
                ModelStats.total_requests := 1;
                ModelStats.total_tokens := tok;
                ModelStats.total_cost_usd := c;
                ModelStats.avg_latency_ms := lat |}
    end.
Proof.
  unfold find_stat.
  induction stats as [| st rest IH]; cbn [Main.update_model_stats find fst].
  - rewrite String.eqb_refl. reflexivity.
  - destruct (String.eqb (ModelStats.model_name st) m) eqn:E.
    + destruct (ModelStats.total_requests st + 1 =? 0)%Z;
        cbn [fst find ModelStats.model_name]; rewrite E; reflexivity.
    + destruct (Main.update_model_stats rest m tok c lat) as [rest' raised].
      cbn [fst find] in *. rewrite E. exact IH.
Qed.

Lemma find_stat_update_other stats m m' tok c lat :
  m' <> m ->
  find_stat m' (fst (Main.update_model_stats stats m tok c lat))
  = find_stat m' stats.
Proof.
  intros Hne. unfold find_stat.
  induction stats as [| st rest IH]; cbn [Main.update_model_stats find fst].
  - cbn [ModelStats.model_name].
    destruct (String.eqb_spec m m'); [congruence | reflexivity].
  - destruct (String.eqb_spec (ModelStats.model_name st) m) as [E | E].
    + destruct (ModelStats.total_requests st + 1 =? 0)%Z;
        cbn [fst find ModelStats.model_name];
        (destruct (String.eqb_spec (ModelStats.model_name st) m');
         [congruence | reflexivity]).
    + destruct (Main.update_model_stats rest m tok c lat) as [rest' raised].
      cbn [fst find] in *.
      destruct (String.eqb (ModelStats.model_name st) m');
        [reflexivity | exact IH].
Qed.


Lemma latencies_of_snoc_same h o :
  latencies_of (backend o) (h ++ [o])
  = (latencies_of (backend o) h ++ [latency o])%list.
Proof.
  unfold latencies_of. rewrite filter_app, map_app. cbn [filter].
  rewrite String.eqb_refl. reflexivity.
Qed.

Lemma latencies_of_snoc_other h o m :
  m <> backend o -> latencies_of m (h ++ [o]) = latencies_of m h.
Proof.
  intros Hne. unfold latencies_of. rewrite filter_app, map_app. cbn [filter].
  destruct (String.eqb_spec (backend o) m); [congruence |].
  apply app_nil_r.
Qed.

Lemma average_steps_count (l : list float) :
  forall avg count,
    snd (fold_left average_step l (avg, count))
    = (count + Z.of_nat (List.length l))%Z.
Proof.
  induction l as [| x l IH]; intros avg count; cbn [fold_left List.length].
  - cbn [snd]. lia.
  - unfold average_step at 2. rewrite IH. lia.
Qed.

(** One more latency moves the running average by one step of the
    recurrence, with the count after the increment. *)
Lemma running_average_snoc (l : list float) (new : float) :
  l <> [] ->
  running_average (l ++ [new])
  = ((running_average l
      * Py.float_of_Z (Z.of_nat (List.length l) + 1 - 1) + new)
     / Py.float_of_Z (Z.of_nat (List.length l) + 1))%float.
Proof.
  destruct l as [| first rest]; [contradiction | intros _].
  cbn [app running_average]. rewrite fold_left_app. cbn [fold_left].
  pose proof (average_steps_count rest first 1%Z) as Hc.
  destruct (fold_left average_step rest (first, 1%Z)) as [avg count].
  cbn [snd] in Hc. cbn [average_step fst].
  replace (Z.of_nat (List.length (first :: rest))) with count
    by (cbn [List.length]; lia).
  reflexivity.
Qed.

Lemma tracks_step stats h o :
  tracks stats h -> tracks (record_one stats o) (h ++ [o]).
Proof.
  intros H m. specialize (H m). unfold record_one.
  destruct (String.eqb_spec m (backend o)) as [-> | Hne].
  - rewrite find_stat_update_same, latencies_of_snoc_same.
    destruct (find_stat (backend o) stats) as [r |].
    + destruct H as (Hl & Hn & Havg).
      cbn [ModelStats.total_requests ModelStats.avg_latency_ms].
      split; [intros E; apply app_eq_nil in E as [_ E]; discriminate |].
      split; [rewrite length_app, Hn; cbn [List.length]; lia |].
      rewrite running_average_snoc by exact Hl.
      rewrite Hn, Havg.
      destruct (Z.eqb_spec (Z.of_nat (List.length (latencies_of (backend o) h)) + 1) 0);
        [lia | reflexivity].
    + rewrite H. cbn [app ModelStats.total_requests ModelStats.avg_latency_ms].
      split; [discriminate |]. split; reflexivity.
  - rewrite find_stat_update_other, latencies_of_snoc_other by assumption.
    exact H.
Qed.

Lemma tracks_record_all (h : list observation) : tracks (record_all [] h) h.
Proof.
  induction h as [| o h IH] using rev_ind.
  - intros m. reflexivity.
  - unfold record_all in *. rewrite fold_left_app. cbn [fold_left].
    apply tracks_step. exact IH.
Qed.







End RunningAverage.



(* ================================================================== *)
(** ** The tier as a function of the tests *)

Lemma test_of_in (prompt : string) : In (Tests.test_of prompt) tests.
Proof.
  unfold Tests.test_of, tests.
  repeat (apply in_prod); try apply in_bools.
  - apply in_seq. pose proof (count_matches_le complex_keywords
                                (PyStr.lower prompt)).
    unfold complex_matches. lia.
  - apply in_seq. pose proof (count_matches_le simple_keywords
                                (PyStr.lower prompt)).
    unfold simple_matches. lia.
Qed.

Lemma complexity_score_test (prompt : string) :
  complexity_score prompt = score_of_test (Tests.test_of prompt).
Proof. rewrite complexity_score_eq. reflexivity. Qed.

Lemma on_tests {A : Type}
      (f g : bool * bool * nat * nat * (bool * bool * bool * bool) -> A) :
  map f tests = map g tests ->
  forall prompt, f (Tests.test_of prompt) = g (Tests.test_of prompt).
Proof.
  intros H prompt. pose proof (test_of_in prompt) as Hin.
  revert H Hin. generalize tests.
  induction l as [| x l IH]; simpl; intros H Hin; [contradiction |].
  injection H as Hx Hl. destruct Hin as [<- | Hin]; auto.
Qed.

Lemma difficulty_of_test (prompt : string) :
  difficulty (classify prompt) = Tests.tier_of_test (Tests.test_of prompt).
Proof.
  unfold Tests.tier_of_test. rewrite <- complexity_score_test, <- classify_eq.
  reflexivity.
Qed.

Lemma on_signals {A : Type}
      (f g : bool -> bool -> nat -> nat -> bool -> bool -> bool -> bool -> A) :
  map (Tests.uncurry8 f) tests = map (Tests.uncurry8 g) tests ->
  forall prompt,
    f (word_count prompt <? 10)%nat (50 <? word_count prompt)%nat
      (complex_matches prompt) (simple_matches prompt) (_contains_code prompt)
      ((question_marks prompt =? 1)%nat && (word_count prompt <? 15)%nat)
      (2 <? question_marks prompt)%nat (reasoning_signal prompt)
    = g (word_count prompt <? 10)%nat (50 <? word_count prompt)%nat
      (complex_matches prompt) (simple_matches prompt) (_contains_code prompt)
      ((question_marks prompt =? 1)%nat && (word_count prompt <? 15)%nat)
      (2 <? question_marks prompt)%nat (reasoning_signal prompt).
Proof.
  intros H prompt.
  exact (on_tests (Tests.uncurry8 f) (Tests.uncurry8 g) H prompt).
Qed.

Lemma tier_of_prompt (prompt : string) :
  difficulty (classify prompt)
  = Tests.tier_of (word_count prompt <? 10)%nat (50 <? word_count prompt)%nat
      (complex_matches prompt) (simple_matches prompt) (_contains_code prompt)
      ((question_marks prompt =? 1)%nat && (word_count prompt <? 15)%nat)
      (2 <? question_marks prompt)%nat (reasoning_signal prompt).
Proof.
  unfold Tests.tier_of. rewrite <- complexity_score_eq, <- classify_eq.
  reflexivity.
Qed.

Lemma simple_table :
  map (Tests.uncurry8 (fun short long cm sm code single multi rs =>
         negb (Tests.is_simple
                 (Tests.tier_of short long cm sm code single multi rs))
         || (negb (sm <? cm)%nat && (0 <? sm)%nat)
         || (short && single))) tests
  = map (Tests.uncurry8 (fun _ _ _ _ _ _ _ _ => true)) tests.
Proof. vm_compute. reflexivity. Qed.

Lemma dominant_table :
  map (Tests.uncurry8 (fun short long cm sm code single multi rs =>
         negb ((sm <? cm)%nat
               && ((3 <=? cm)%nat || ((2 <=? cm)%nat && negb short)))
         || Tests.is_complex
              (Tests.tier_of short long cm sm code single multi rs))) tests
  = map (Tests.uncurry8 (fun _ _ _ _ _ _ _ _ => true)) tests.
Proof. vm_compute. reflexivity. Qed.

Lemma reasoning_table :
  map (Tests.uncurry8 (fun short long cm sm code single multi rs =>
         negb ((sm <? cm)%nat && (2 <=? cm)%nat && rs)
         || Tests.is_complex
              (Tests.tier_of short long cm sm code single multi rs))) tests
  = map (Tests.uncurry8 (fun _ _ _ _ _ _ _ _ => true)) tests.
Proof. vm_compute. reflexivity. Qed.

(** The confidence of every classification lies between 0.6 and 0.9, so
    the constraint of [ClassificationResult] on it is always met. *)
Theorem confidence_range (prompt : string) :
  (0.6 <=? confidence (classify prompt))%float = true
  /\ (confidence (classify prompt) <=? 0.9)%float = true
  /\ Tests.confidence_field_ok (confidence (classify prompt)) = true.
Proof.
  assert (H : map (fun S => let c := snd (determine_difficulty S) in
                            (0.6 <=? c)%float && (c <=? 0.9)%float
                            && Tests.confidence_field_ok c)
                  reachable_scores
              = map (fun _ => true) reachable_scores)
    by (vm_compute; reflexivity).
  pose proof (on_reachable _ _ H prompt) as G. simpl in G.
  rewrite <- classify_eq in G. simpl in G.
  apply andb_prop in G as [G G3]. apply andb_prop in G as [G1 G2]. auto.
Qed.

(** A prompt is classified simple only if a simple keyword lowered the
    score or the prompt is a short single question. *)
Theorem simple_needs_keyword_or_short_question (prompt : string) :
  difficulty (classify prompt) = simple ->
  (complex_matches prompt <= simple_matches prompt
   /\ 0 < simple_matches prompt)%nat
  \/ (word_count prompt < 10 /\ question_marks prompt = 1)%nat.
Proof.
  intros Hd.
  pose proof (on_signals _ _ simple_table prompt) as G. cbv beta in G.
  rewrite <- tier_of_prompt in G. rewrite Hd in G.
  change (Tests.is_simple simple) with true in G.
  change (negb true) with false in G.
  rewrite !orb_false_l in G.
  destruct (Nat.ltb_spec (simple_matches prompt) (complex_matches prompt))
    as [Hlt | Hge];
    destruct (Nat.ltb_spec 0 (simple_matches prompt)) as [Hpos | Hz];
    destruct (Nat.ltb_spec (word_count prompt) 10) as [Hs | Hs];
    destruct (Nat.eqb_spec (question_marks prompt) 1) as [Hq | Hq];
    cbn [negb andb orb] in G; try discriminate G;
    try (left; split; assumption); try (right; split; assumption).
Qed.

Lemma simple_needs_keyword_or_short_question_witness :
  (complex_matches "Summarize this in 3 sentences"
   <= simple_matches "Summarize this in 3 sentences"
   /\ 0 < simple_matches "Summarize this in 3 sentences")%nat
  \/ (word_count "Summarize this in 3 sentences" < 10
      /\ question_marks "Summarize this in 3 sentences" = 1)%nat.
Proof.
  apply simple_needs_keyword_or_short_question. vm_compute. reflexivity.
Defined.

(** Complex keywords that outnumber the simple ones decide the tier when
    there are three of them, or two in a prompt of ten words or more:
    the prompt is classified complex whatever the other signals. *)
Theorem dominant_complex_keywords_make_complex (prompt : string) :
  (simple_matches prompt < complex_matches prompt)%nat ->
  (3 <= complex_matches prompt
   \/ (2 <= complex_matches prompt /\ 10 <= word_count prompt))%nat ->
  difficulty (classify prompt) = complex.
Proof.
  intros Hk Hn.
  pose proof (on_signals _ _ dominant_table prompt) as G. cbv beta in G.
  rewrite <- tier_of_prompt in G.
  apply Nat.ltb_lt in Hk.
  assert (Hc : ((3 <=? complex_matches prompt)%nat
                || ((2 <=? complex_matches prompt)%nat
                    && negb (word_count prompt <? 10)%nat)) = true).
  { destruct Hn as [Hn | [Hn Hw]].
    - apply Nat.leb_le in Hn. rewrite Hn. reflexivity.
    - apply Nat.leb_le in Hn. apply Nat.ltb_ge in Hw.
      rewrite Hn, Hw. apply orb_true_r. }
  rewrite Hk, Hc in G. cbn [negb andb orb] in G.
  destruct (difficulty (classify prompt)); try discriminate G. reflexivity.
Qed.

Lemma dominant_complex_keywords_make_complex_witness :
  difficulty (classify "Debug and refactor this algorithm") = complex.
Proof.
  apply dominant_complex_keywords_make_complex; vm_compute; [lia | left; lia].
Defined.

(** A prompt of fewer than ten words with a simple keyword, no more
    complex keywords than simple ones, no code and no request for
    reasoning is classified simple with confidence 0.9. *)
Theorem short_simple_keyword_prompt_is_simple (prompt : string) :
  (word_count prompt < 10)%nat ->
  (0 < simple_matches prompt)%nat ->
  (complex_matches prompt <= simple_matches prompt)%nat ->
  code_signal prompt = false ->
  reasoning_signal prompt = false ->
  difficulty (classify prompt) = simple
  /\ confidence (classify prompt) = 0.9%float.
Proof.
  intros Hw Hs Hc Hcode Hr.
  assert (H : map (fun t =>
                     let '(short, _, cm, sm, (code, _, _, rs)) := t in
                     if short && (0 <? sm)%nat && negb (sm <? cm)%nat
                        && negb code && negb rs
                     then determine_difficulty (score_of_test t)
                     else (simple, 0.9%float)) tests
              = map (fun _ => (simple, 0.9%float)) tests)
    by (vm_compute; reflexivity).
  pose proof (on_tests _ _ H prompt) as G. cbv beta in G.
  rewrite <- complexity_score_test, <- classify_eq in G.
  unfold Tests.test_of in G. cbv beta iota in G.
  apply Nat.ltb_lt in Hw, Hs. apply Nat.ltb_ge in Hc.
  unfold code_signal in Hcode.
  rewrite Hw, Hs, Hc, Hcode, Hr in G. simpl in G.
  injection G as G1 G2. auto.
Qed.

Lemma short_simple_keyword_prompt_is_simple_witness :
  difficulty (classify "Translate this list") = simple
  /\ confidence (classify "Translate this list") = 0.9%float.
Proof.
  apply short_simple_keyword_prompt_is_simple; vm_compute;
    try reflexivity; lia.
Defined.

(* ================================================================== *)
(** ** Substrings and literal patterns *)

Lemma string_app_assoc (a b c : string) : ((a ++ b) ++ c = a ++ (b ++ c))%string.
Proof. induction a as [| x a IH]; simpl; [reflexivity | rewrite IH; reflexivity]. Qed.

Lemma startswith_iff (a s : string) :
  PyStr.startswith a s = true <-> exists post, s = (a ++ post)%string.
Proof.
  revert s. induction a as [| x a IH]; intros s; simpl.
  - split; [intros _; exists s; reflexivity | reflexivity].
  - destruct s as [| y s].
    + split; [discriminate | intros [post H]; discriminate].
    + split.
      * intros H. apply andb_prop in H as [Hx Ha].
        apply Ascii.eqb_eq in Hx. apply IH in Ha as [post ->].
        exists post. rewrite Hx. reflexivity.
      * intros [post H]. injection H as -> ->.
        rewrite Ascii.eqb_refl. simpl. apply IH. eauto.
Qed.

Lemma str_in_iff (a s : string) :
  PyStr.str_in a s = true <-> exists pre post, s = (pre ++ a ++ post)%string.
Proof.
  induction s as [| y s IH].
  - simpl. rewrite orb_false_r, startswith_iff. split.
    + intros [post H]. exists EmptyString, post. exact H.
    + intros [pre [post H]]. destruct pre; [eauto | discriminate].
  - cbn [PyStr.str_in]. rewrite orb_true_iff, startswith_iff, IH. split.
    + intros [[post H] | [pre [post H]]].
      * exists EmptyString, post. exact H.
      * exists (String y pre), post. rewrite H. reflexivity.
    + intros [pre [post H]]. destruct pre as [| x pre].
      * left. exists post. exact H.
      * right. injection H as _ ->. eauto.
Qed.

Lemma str_in_trans (a b c : string) :
  PyStr.str_in a b = true -> PyStr.str_in b c = true -> PyStr.str_in a c = true.
Proof.
  rewrite !str_in_iff. intros [p1 [q1 ->]] [p2 [q2 ->]].
  exists (p2 ++ p1)%string, (q1 ++ q2)%string.
  rewrite !string_app_assoc. reflexivity.
Qed.

Lemma match_here_lit_prefix (s : string) (rest : Re.pattern) :
  forall prev t,
    Re.match_here (Re.lit s ++ rest)%list prev t = true -> PyStr.startswith s t = true.
Proof.
  unfold Re.lit.
  induction s as [| a s IH]; intros prev t H; [reflexivity |].
  simpl in H. destruct t as [| b t]; [discriminate |].
  apply andb_prop in H as [Hab H]. simpl. rewrite Hab. simpl.
  exact (IH _ _ H).
Qed.

Lemma match_here_lit (s : string) :
  forall prev t, Re.match_here (Re.lit s) prev t = PyStr.startswith s t.
Proof.
  unfold Re.lit.
  induction s as [| a s IH]; intros prev t; [destruct t; reflexivity |].
  simpl. destruct t as [| b t]; [reflexivity |]. rewrite IH. reflexivity.
Qed.

Lemma search_from_lit (s : string) :
  forall prev t, Re.search_from (Re.lit s) prev t = PyStr.str_in s t.
Proof.
  intros prev t. revert prev.
  induction t as [| b t IH]; intros prev; cbn [Re.search_from PyStr.str_in];
    rewrite match_here_lit; [reflexivity |]. rewrite IH. reflexivity.
Qed.

Lemma search_from_lit_prefix (s : string) (rest : Re.pattern) :
  forall prev t,
    Re.search_from (Re.lit s ++ rest)%list prev t = true -> PyStr.str_in s t = true.
Proof.
  intros prev t. revert prev.
  induction t as [| b t IH]; intros prev H; cbn [Re.search_from] in H;
    cbn [PyStr.str_in]; apply orb_prop in H as [H | H].
  - apply match_here_lit_prefix in H. rewrite H. reflexivity.
  - discriminate.
  - apply match_here_lit_prefix in H. rewrite H. reflexivity.
  - apply IH in H. rewrite H. apply orb_true_r.
Qed.

Lemma search_from_boundary_lit_prefix (s : string) (rest : Re.pattern) :
  forall prev t,
    Re.search_from (Re.WordBoundary :: Re.lit s ++ rest)%list prev t = true ->
    PyStr.str_in s t = true.
Proof.
  intros prev t. revert prev.
  induction t as [| b t IH]; intros prev H; cbn [Re.search_from] in H;
    cbn [PyStr.str_in]; apply orb_prop in H as [H | H].
  - cbn [Re.match_here] in H. apply andb_prop in H as [_ H].
    apply match_here_lit_prefix in H. rewrite H. reflexivity.
  - discriminate.
  - cbn [Re.match_here] in H. apply andb_prop in H as [_ H].
    apply match_here_lit_prefix in H. rewrite H. reflexivity.
  - apply IH in H. rewrite H. apply orb_true_r.
Qed.

(** A prompt that contains three backticks in a row fires the code
    signal, whatever else it contains. *)
Theorem fenced_block_is_code (prompt : string) :
  PyStr.str_in "```" prompt = true -> _contains_code prompt = true.
Proof.
  intros H. unfold _contains_code, code_indicators. cbn [existsb].
  unfold Re.search. rewrite search_from_lit, H. reflexivity.
Qed.

Lemma fenced_block_is_code_witness :
  _contains_code "what does ```x = 1``` do" = true.
Proof. apply fenced_block_is_code. vm_compute. reflexivity. Defined.

(** The code signal fires only on a prompt that contains three
    backticks, "def", "function", "class", "import" or "<", in that
    letter case. *)
Theorem code_needs_an_opener (prompt : string) :
  _contains_code prompt = true ->
  existsb (fun opener => PyStr.str_in opener prompt)
          ["```"; "def"; "function"; "class"; "import"; "<"] = true.
Proof.
  unfold _contains_code, code_indicators, Re.search. cbn [existsb].
  intros H.
  repeat (apply orb_prop in H as [H | H]); try discriminate H.
  - rewrite search_from_lit in H. rewrite H. reflexivity.
  - apply search_from_lit_prefix in H. rewrite H. repeat rewrite orb_true_r. reflexivity.
  - apply search_from_lit_prefix in H. rewrite H. repeat rewrite orb_true_r. reflexivity.
  - apply search_from_lit_prefix in H. rewrite H. repeat rewrite orb_true_r. reflexivity.
  - apply search_from_boundary_lit_prefix in H. rewrite H.
    repeat rewrite orb_true_r. reflexivity.
  - apply search_from_lit_prefix in H. rewrite H. repeat rewrite orb_true_r. reflexivity.
Qed.

Lemma code_needs_an_opener_witness :
  existsb (fun opener => PyStr.str_in opener "see class Foo")
          ["```"; "def"; "function"; "class"; "import"; "<"] = true.
Proof. apply code_needs_an_opener. vm_compute. reflexivity. Defined.

(* ================================================================== *)
(** ** Keywords that overlap, and the trace *)

Lemma count_matches_two (kws l1 l2 l3 : list string) (a b s : string) :
  kws = (l1 ++ a :: l2 ++ b :: l3)%list ->
  PyStr.str_in a s = true -> PyStr.str_in b s = true ->
  (2 <= count_matches kws s)%nat.
Proof.
  intros -> Ha Hb. unfold count_matches.
  rewrite filter_app. cbn [filter]. rewrite Ha.
  rewrite filter_app. cbn [filter]. rewrite Hb.
  rewrite length_app. cbn [List.length].
  rewrite length_app. cbn [List.length]. lia.
Qed.

(** The word "reasoning", in any letter case, is counted as two complex
    keywords ("reason" and "reasoning") and also fires the reasoning
    signal; unless the simple keywords are at least as many as the
    complex ones, the prompt is classified complex. *)
Theorem reasoning_is_counted_three_times (prompt : string) :
  PyStr.str_in "reasoning" (PyStr.lower prompt) = true ->
  (2 <= complex_matches prompt)%nat
  /\ reasoning_signal prompt = true
  /\ ((simple_matches prompt <? complex_matches prompt)%nat = true ->
      difficulty (classify prompt) = complex).
Proof.
  intros H.
  assert (H2 : (2 <= complex_matches prompt)%nat).
  { unfold complex_matches.
    apply (count_matches_two complex_keywords
             ["write a"; "create a"; "build a"; "develop";
              "analyze"; "compare"; "explain why"]
             ["architecture"; "system design"; "algorithm";
              "debug"; "refactor"; "optimize";
              "multi-step"; "chain of thought"]
             ["creative writing"; "story"; "essay"; "article"]
             "reason" "reasoning").
    - reflexivity.
    - apply (str_in_trans "reason" "reasoning"); [reflexivity | exact H].
    - exact H. }
  assert (Hr : reasoning_signal prompt = true).
  { unfold reasoning_signal. apply existsb_exists.
    exists "reasoning". split; [simpl; auto | exact H]. }
  split; [exact H2 |]. split; [exact Hr |].
  intros Hk.
  pose proof (on_signals _ _ reasoning_table prompt) as G. cbv beta in G.
  rewrite <- tier_of_prompt in G.
  apply Nat.leb_le in H2. rewrite Hk, H2, Hr in G. cbn [negb andb orb] in G.
  destruct (difficulty (classify prompt)); try discriminate G. reflexivity.
Qed.

Lemma reasoning_is_counted_three_times_witness :
  (2 <= complex_matches "Show your REASONING")%nat
  /\ reasoning_signal "Show your REASONING" = true
  /\ ((simple_matches "Show your REASONING"
       <? complex_matches "Show your REASONING")%nat = true ->
      difficulty (classify "Show your REASONING") = complex).
Proof.
  apply reasoning_is_counted_three_times. vm_compute. reflexivity.
Defined.

(** The trace names the code signal exactly when it fired: "contains
    code" is one of the fragments that are joined into the rationale if
    and only if [_contains_code] holds of the prompt. *)
Theorem trace_reports_code (prompt : string) :
  In "contains code" (snd (score_and_reasoning prompt))
  <-> _contains_code prompt = true.
Proof.
  unfold score_and_reasoning, list_append.
  destruct (_ <? 10)%nat; [| destruct (50 <? _)%nat];
    (destruct (_ <? count_matches complex_keywords _)%nat;
     [| destruct (0 <? _)%nat]);
    destruct (_contains_code prompt);
    (destruct (_ && _); [| destruct (2 <? _)%nat]);
    destruct (existsb _ _);
    cbn [snd app];
    (split; [intros H; try reflexivity;
             cbn [In] in H;
             repeat (destruct H as [H | H]; [discriminate H |]);
             contradiction
            | intros H; try discriminate H;
              cbn [In]; auto 8]).
Qed.

(* ================================================================== *)
(** ** The client behind the router *)

(** When the provider call raises, the request ends with status 500
    whose detail is "Error: " and the exception's text, and the database
    is left as it was, whatever the price table. *)
Theorem provider_failure_reaches_caller
        costs validation_text settings provider elapsed_ms total_latency
        request db msg :
  provider
    (Config.DIFFICULTY_TO_MODEL settings
       (difficulty (classify (PromptRequest.prompt request))))
    (PromptRequest.prompt request) (PromptRequest.max_tokens request)
    (PromptRequest.temperature request) = inl msg ->
  Main.generate_with costs validation_text settings
                     (Clients.backend provider elapsed_ms)
                     total_latency request db
  = (db, inr {| status_code := 500; detail := Some ("Error: " ++ msg) |}).
Proof.
  intros H.
  unfold Main.generate_with, ModelRouter.route_and_generate,
    Clients.backend, Clients.generate.
  rewrite H. reflexivity.
Qed.

Lemma provider_failure_reaches_caller_witness :
  Main.generate_with Config.MODEL_COSTS Examples.validation_text
    Config.default_settings
    (Clients.backend (fun _ _ _ _ => inl "401 Unauthorized") 35)
    36 Examples.hello Examples.empty_db
  = (Examples.empty_db,
     inr {| status_code := 500;
            detail := Some ("Error: " ++ "401 Unauthorized") |}).
Proof.
  apply (provider_failure_reaches_caller Config.MODEL_COSTS
           Examples.validation_text
           Config.default_settings (fun _ _ _ _ => inl "401 Unauthorized")
           35 36 Examples.hello Examples.empty_db "401 Unauthorized").
  reflexivity.
Defined.

(* ================================================================== *)
(** ** The rows that one request writes *)

Lemma float_of_100 : Py.float_of_int 100 = Some 100%float.
Proof. vm_compute. reflexivity. Qed.

(** When the backend answers and both prices are in the table, the row
    of the request is written with status success, the tokens of the
    answer, the cost as tokens times price and the saving as the
    difference of the two costs, in binary64 and unrounded.  When a
    response is returned it reports the row's key and the cost and the
    saving rounded to 6 places, the latency to 2; otherwise the request
    fails with status 500 and an error row follows the row. *)
Theorem cost_saved_with_baseline
        costs validation_text settings backend total_latency request db
        used_price baseline_price tokens :
  let model := Config.DIFFICULTY_TO_MODEL settings
                 (difficulty (classify (PromptRequest.prompt request))) in
  let out := backend model (PromptRequest.prompt request)
               (PromptRequest.max_tokens request)
               (PromptRequest.temperature request) in
  let result := Main.generate_with costs validation_text settings backend
                                   total_latency request db in
  ModelRouter.status out = success ->
  Py.dict_get costs model = Some used_price ->
  Py.float_of_int (ModelRouter.tokens_used out) = Some tokens ->
  Py.dict_get costs "gpt-4o" = Some baseline_price ->
  exists log tail,
    request_logs (fst result) = (request_logs db ++ log :: tail)%list
    /\ RequestLog.id log = next_id (request_logs db)
    /\ RequestLog.status log = success
    /\ RequestLog.selected_model log = model
    /\ RequestLog.response log = ModelRouter.response out
    /\ RequestLog.prompt_tokens log = Some (ModelRouter.tokens_used out)
    /\ RequestLog.response_tokens log = Some (ModelRouter.tokens_used out)
    /\ RequestLog.latency_ms log = Some total_latency
    /\ RequestLog.cost_usd log = Some (tokens * used_price)%float
    /\ RequestLog.cost_saved_usd log
       = Some (tokens * baseline_price - tokens * used_price)%float
    /\ match snd result with
       | inl resp =>
           tail = []
           /\ ModelRouter.response out = Some (RouterResponse.response resp)
           /\ RouterResponse.request_id resp = RequestLog.id log
           /\ RouterResponse.model_used resp = model
           /\ RouterResponse.tokens_used resp = ModelRouter.tokens_used out
           /\ RouterResponse.cost_usd resp
              = Py.round (tokens * used_price)%float 6
           /\ RouterResponse.cost_saved_usd resp
              = Py.round (tokens * baseline_price - tokens * used_price)%float 6
           /\ RouterResponse.latency_ms resp = Py.round total_latency 2
       | inr e =>
           status_code e = 500%Z
           /\ exists err, tail = [err] /\ RequestLog.status err = error
                          /\ RequestLog.cost_usd err = None
       end.
Proof.
  intros model out result Hs Hp Ht Hb. subst result.
  unfold Main.generate_with, ModelRouter.route_and_generate.
  fold model. fold out. rewrite Hs, Hp, Ht, Hb.
  destruct (Main.update_model_stats (model_stats db) model
              (ModelRouter.tokens_used out) (tokens * used_price)%float
              total_latency) as [stats raised].
  destruct raised as [e |]; [| destruct (ModelRouter.response out) as [r |]];
    unfold Main.log_error; cbn [fst snd request_logs model_stats];
    try rewrite <- app_assoc; cbn [app];
    eexists; eexists; (split; [reflexivity |]);
    cbn [RequestLog.id RequestLog.status RequestLog.selected_model
         RequestLog.response RequestLog.prompt_tokens
         RequestLog.response_tokens RequestLog.latency_ms
         RequestLog.cost_usd RequestLog.cost_saved_usd];
    repeat (split; [reflexivity |]);
    first [ solve [repeat split] | solve [eexists; repeat split] ].
Qed.

Lemma cost_saved_with_baseline_witness :
  let result := Main.generate_with Examples.costs_with_baseline
                  Examples.validation_text Config.default_settings
                  Examples.ok_backend 250 Examples.hello Examples.empty_db in
  exists log tail,
    request_logs (fst result)
    = (request_logs Examples.empty_db ++ log :: tail)%list
    /\ RequestLog.id log = next_id (request_logs Examples.empty_db)
    /\ RequestLog.status log = success
    /\ RequestLog.selected_model log = "anthropic/claude-3-haiku"
    /\ RequestLog.response log = Some "Hi!"
    /\ RequestLog.prompt_tokens log = Some 100%Z
    /\ RequestLog.response_tokens log = Some 100%Z
    /\ RequestLog.latency_ms log = Some 250%float
    /\ RequestLog.cost_usd log = Some (100 * (1.00 / 1000000))%float
    /\ RequestLog.cost_saved_usd log
       = Some (100 * (5.00 / 1000000) - 100 * (1.00 / 1000000))%float
    /\ match snd result with
       | inl resp =>
           tail = []
           /\ Some "Hi!" = Some (RouterResponse.response resp)
           /\ RouterResponse.request_id resp = RequestLog.id log
           /\ RouterResponse.model_used resp = "anthropic/claude-3-haiku"
           /\ RouterResponse.tokens_used resp = 100%Z
           /\ RouterResponse.cost_usd resp
              = Py.round (100 * (1.00 / 1000000))%float 6
           /\ RouterResponse.cost_saved_usd resp
              = Py.round (100 * (5.00 / 1000000) - 100 * (1.00 / 1000000))%float 6
           /\ RouterResponse.latency_ms resp = Py.round 250 2
       | inr e =>
           status_code e = 500%Z
           /\ exists err, tail = [err] /\ RequestLog.status err = error
                          /\ RequestLog.cost_usd err = None
       end.
Proof.
  apply (cost_saved_with_baseline Examples.costs_with_baseline
           Examples.validation_text Config.default_settings
           Examples.ok_backend 250 Examples.hello Examples.empty_db
           (1.00 / 1000000)%float (5.00 / 1000000)%float 100%float);
    vm_compute; reflexivity.
Defined.

(** The request of the example: 100 tokens of the medium model cost
    0.0001 and save 0.0004 against the baseline of the example. *)
Example amounts_of_the_example :
  Main.generate_with Examples.costs_with_baseline
    Examples.validation_text Config.default_settings
    Examples.ok_backend 250 Examples.hello Examples.empty_db
  = ({| request_logs := [Examples.hello_row];
        model_stats := [Examples.hello_stats] |},
     inl Examples.hello_response).
Proof. vm_compute. reflexivity. Qed.

(** The amounts are rounded only in the response: whenever a response
    is returned, the request added exactly one row, with status success,
    and the response reports the key of the row and its cost and saving
    rounded to 6 places and its latency rounded to 2. *)
Theorem response_rounds_stored_amounts
        costs validation_text settings backend total_latency request db
        db' resp :
  Main.generate_with costs validation_text settings backend total_latency
                     request db = (db', inl resp) ->
  exists log cost saved,
    request_logs db' = (request_logs db ++ [log])%list
    /\ RequestLog.status log = success
    /\ RouterResponse.request_id resp = RequestLog.id log
    /\ RequestLog.response log = Some (RouterResponse.response resp)
    /\ RequestLog.cost_usd log = Some cost
    /\ RequestLog.cost_saved_usd log = Some saved
    /\ RequestLog.latency_ms log = Some total_latency
    /\ RouterResponse.cost_usd resp = Py.round cost 6
    /\ RouterResponse.cost_saved_usd resp = Py.round saved 6
    /\ RouterResponse.latency_ms resp = Py.round total_latency 2.
Proof.
  unfold Main.generate_with, ModelRouter.route_and_generate.
  destruct (ModelRouter.status _); [| discriminate].
  destruct (Py.dict_get costs _) as [p |]; [| discriminate].
  destruct (Py.float_of_int _) as [t |]; [| discriminate].
  destruct (Py.dict_get costs "gpt-4o") as [b |]; [| discriminate].
  destruct (Main.update_model_stats _ _ _ _ _) as [stats raised].
  destruct raised as [e |]; [discriminate |].
  destruct (ModelRouter.response _) as [r |] eqn:Er; [| discriminate].
  intros H. injection H as <- <-.
  eexists. eexists. eexists. cbn [request_logs].
  split; [reflexivity |].
  cbn [RequestLog.id RequestLog.status RequestLog.response
       RequestLog.cost_usd RequestLog.cost_saved_usd RequestLog.latency_ms
       RouterResponse.request_id RouterResponse.response
       RouterResponse.cost_usd RouterResponse.cost_saved_usd
       RouterResponse.latency_ms].
  repeat split.
Qed.

Lemma response_rounds_stored_amounts_witness :
  exists log cost saved,
    [Examples.hello_row] = (request_logs Examples.empty_db ++ [log])%list
    /\ RequestLog.status log = success
    /\ RouterResponse.request_id Examples.hello_response = RequestLog.id log
    /\ RequestLog.response log
       = Some (RouterResponse.response Examples.hello_response)
    /\ RequestLog.cost_usd log = Some cost
    /\ RequestLog.cost_saved_usd log = Some saved
    /\ RequestLog.latency_ms log = Some 250%float
    /\ RouterResponse.cost_usd Examples.hello_response = Py.round cost 6
    /\ RouterResponse.cost_saved_usd Examples.hello_response
       = Py.round saved 6
    /\ RouterResponse.latency_ms Examples.hello_response = Py.round 250 2.
Proof.
  apply (response_rounds_stored_amounts Examples.costs_with_baseline
           Examples.validation_text Config.default_settings
           Examples.ok_backend 250%float Examples.hello Examples.empty_db
           {| request_logs := [Examples.hello_row];
              model_stats := [Examples.hello_stats] |}
           Examples.hello_response).
  vm_compute. reflexivity.
Defined.

(** When the provider answers without a usage block, the request is
    accounted as 100 tokens: with both prices in the table the row of
    the request holds 100 tokens and the cost of 100 tokens of the model
    used, and a response that is returned reports 100 tokens. *)
Theorem missing_usage_is_billed_as_100_tokens
        costs validation_text settings provider elapsed_ms total_latency
        request db message others used_price baseline_price :
  let model := Config.DIFFICULTY_TO_MODEL settings
                 (difficulty (classify (PromptRequest.prompt request))) in
  let result := Main.generate_with costs validation_text settings
                  (Clients.backend provider elapsed_ms) total_latency
                  request db in
  provider model (PromptRequest.prompt request)
           (PromptRequest.max_tokens request)
           (PromptRequest.temperature request)
  = inr {| Clients.choices :=
             Some ({| Clients.choice_message := Some message |} :: others);
           Clients.usage := None |} ->
  Py.dict_get costs model = Some used_price ->
  Py.dict_get costs "gpt-4o" = Some baseline_price ->
  exists log tail,
    request_logs (fst result) = (request_logs db ++ log :: tail)%list
    /\ RequestLog.status log = success
    /\ RequestLog.response log = Clients.content message
    /\ RequestLog.prompt_tokens log = Some 100%Z
    /\ RequestLog.response_tokens log = Some 100%Z
    /\ RequestLog.cost_usd log = Some (100 * used_price)%float
    /\ forall resp, snd result = inl resp ->
                    RouterResponse.tokens_used resp = 100%Z
                    /\ RouterResponse.cost_usd resp
                       = Py.round (100 * used_price)%float 6.
Proof.
  intros model result Hprov Hp Hb. subst result.
  unfold Main.generate_with, ModelRouter.route_and_generate,
    Clients.backend, Clients.generate.
  fold model. rewrite Hprov.
  cbn [Clients.choices Clients.choice_message Clients.usage
       ModelRouter.status ModelRouter.tokens_used ModelRouter.response].
  rewrite Hp, float_of_100, Hb.
  destruct (Main.update_model_stats _ _ _ _ _) as [stats raised].
  destruct raised as [e |]; [| destruct (Clients.content message) as [r |]];
    unfold Main.log_error; cbn [fst snd request_logs model_stats];
    try rewrite <- app_assoc; cbn [app];
    eexists; eexists; (split; [reflexivity |]);
    cbn [RequestLog.status RequestLog.response RequestLog.prompt_tokens
         RequestLog.response_tokens RequestLog.cost_usd];
    repeat (split; [reflexivity |]);
    intros resp H; try discriminate H.
  injection H as <-. split; reflexivity.
Qed.

Lemma missing_usage_is_billed_as_100_tokens_witness :
  let provider : Clients.Provider :=
    fun _ _ _ _ =>
      inr {| Clients.choices :=
               Some [{| Clients.choice_message :=
                          Some {| Clients.content := Some "Hi!" |} |}];
             Clients.usage := None |} in
  let result := Main.generate_with Examples.costs_with_baseline
                  Examples.validation_text Config.default_settings
                  (Clients.backend provider 240) 250
                  Examples.hello Examples.empty_db in
  exists log tail,
    request_logs (fst result)
    = (request_logs Examples.empty_db ++ log :: tail)%list
    /\ RequestLog.status log = success
    /\ RequestLog.response log = Some "Hi!"
    /\ RequestLog.prompt_tokens log = Some 100%Z
    /\ RequestLog.response_tokens log = Some 100%Z
    /\ RequestLog.cost_usd log = Some (100 * (1.00 / 1000000))%float
    /\ forall resp, snd result = inl resp ->
                    RouterResponse.tokens_used resp = 100%Z
                    /\ RouterResponse.cost_usd resp
                       = Py.round (100 * (1.00 / 1000000))%float 6.
Proof.
  intros provider.
  apply (missing_usage_is_billed_as_100_tokens Examples.costs_with_baseline
           Examples.validation_text Config.default_settings provider
           240 250 Examples.hello Examples.empty_db
           {| Clients.content := Some "Hi!" |} []
           (1.00 / 1000000)%float (5.00 / 1000000)%float);
    reflexivity.
Defined.

(** A message without content is accounted before it is refused: when
    the backend answers without content, both prices are in the table
    and the update of the aggregate raises nothing, the success row of
    the request is stored with no response and the aggregate is updated;
    then the construction of the response raises, an error row is added
    behind the success row and the request fails with status 500. *)
Theorem empty_content_is_stored_then_refused
        costs validation_text settings backend total_latency request db
        used_price baseline_price tokens :
  let model := Config.DIFFICULTY_TO_MODEL settings
                 (difficulty (classify (PromptRequest.prompt request))) in
  let out := backend model (PromptRequest.prompt request)
               (PromptRequest.max_tokens request)
               (PromptRequest.temperature request) in
  let update := Main.update_model_stats (model_stats db) model
                  (ModelRouter.tokens_used out)
                  (tokens * used_price)%float total_latency in
  ModelRouter.status out = success ->
  ModelRouter.response out = None ->
  Py.dict_get costs model = Some used_price ->
  Py.float_of_int (ModelRouter.tokens_used out) = Some tokens ->
  Py.dict_get costs "gpt-4o" = Some baseline_price ->
  snd update = None ->
  exists log err,
    Main.generate_with costs validation_text settings backend total_latency
                       request db
    = ({| request_logs := (request_logs db ++ [log; err])%list;
          model_stats := fst update |},
       inr {| status_code := 500;
              detail := Some ("Internal error: " ++ validation_text) |})
    /\ RequestLog.status log = success
    /\ RequestLog.response log = None
    /\ RequestLog.cost_usd log = Some (tokens * used_price)%float
    /\ RequestLog.status err = error
    /\ RequestLog.response err = Some ("Error: " ++ validation_text).
Proof.
  intros model out update Hs Hr Hp Ht Hb Hu.
  unfold Main.generate_with, ModelRouter.route_and_generate.
  fold model. fold out. rewrite Hs, Hp, Ht, Hb, Hr. fold update.
  destruct update as [stats raised]. cbn [snd] in Hu. subst raised.
  unfold Main.log_error. cbn [fst request_logs model_stats].
  rewrite <- app_assoc. cbn [app].
  eexists. eexists. split; [reflexivity |].
  cbn [RequestLog.status RequestLog.response RequestLog.cost_usd
       Py.str_exception].
  repeat split.
Qed.

Lemma empty_content_is_stored_then_refused_witness :
  exists log err,
    Main.generate_with Examples.costs_with_baseline Examples.validation_text
      Config.default_settings Examples.silent_backend 250
      Examples.hello Examples.empty_db
    = ({| request_logs := (request_logs Examples.empty_db ++ [log; err])%list;
          model_stats :=
            fst (Main.update_model_stats (model_stats Examples.empty_db)
                   "anthropic/claude-3-haiku" 100
                   (100 * (1.00 / 1000000))%float 250) |},
       inr {| status_code := 500;
              detail := Some ("Internal error: " ++ Examples.validation_text) |})
    /\ RequestLog.status log = success
    /\ RequestLog.response log = None
    /\ RequestLog.cost_usd log = Some (100 * (1.00 / 1000000))%float
    /\ RequestLog.status err = error
    /\ RequestLog.response err = Some ("Error: " ++ Examples.validation_text).
Proof.
  apply (empty_content_is_stored_then_refused Examples.costs_with_baseline
           Examples.validation_text Config.default_settings
           Examples.silent_backend 250 Examples.hello Examples.empty_db
           (1.00 / 1000000)%float (5.00 / 1000000)%float 100%float);
    reflexivity.
Defined.

(* ================================================================== *)
(** ** The database along a sequence of requests *)

(** The three ways in which one call leaves the database: untouched,
    with one more error row, or with the success row of the request,
    followed by an error row when an exception came after it, and the
    aggregate updated with the row. *)
Lemma serve_shape costs validation_text settings db c :
  let db' := Sessions.serve costs validation_text settings db c in
  db' = db
  \/ (exists err,
        request_logs db' = (request_logs db ++ [err])%list
        /\ RequestLog.status err = error
        /\ model_stats db' = model_stats db)
  \/ (exists log tail,
        request_logs db' = (request_logs db ++ log :: tail)%list
        /\ RequestLog.status log = success
        /\ Sessions.complete log = true
        /\ (tail = []
            \/ exists err, tail = [err] /\ RequestLog.status err = error)
        /\ model_stats db'
           = History.record_all (model_stats db) (Sessions.observation_of log)).
Proof.
  unfold Sessions.serve, Main.generate_with, ModelRouter.route_and_generate.
  destruct (ModelRouter.status _); [| left; reflexivity].
  destruct (Py.dict_get costs _) as [p |];
    [destruct (Py.float_of_int _) as [t |];
     [destruct (Py.dict_get costs "gpt-4o") as [b |] | ] | ];
    try (right; left; unfold Main.log_error; eexists;
         cbn [fst request_logs model_stats];
         split; [reflexivity |]; split; reflexivity).
  right. right.
  unfold History.record_all, Sessions.observation_of.
  match goal with
  | |- context [Main.update_model_stats ?s ?m ?k ?a ?l] =>
      destruct (Main.update_model_stats s m k a l) as [stats raised] eqn:E
  end.
  destruct raised as [e |]; [| destruct (ModelRouter.response _) as [r |]];
    unfold Main.log_error; cbn [fst request_logs model_stats];
    try rewrite <- app_assoc; cbn [app];
    eexists; eexists; (split; [reflexivity |]);
    cbn [RequestLog.status RequestLog.response_tokens RequestLog.cost_usd
         RequestLog.latency_ms RequestLog.selected_model fold_left
         Sessions.complete RequestLog.cost_saved_usd];
    unfold History.record_one;
    cbn [History.backend History.tokens History.cost History.latency];
    rewrite E; cbn [fst];
    (split; [reflexivity |]); (split; [reflexivity |]);
    (split; [| reflexivity]);
    first [ left; reflexivity | right; eexists; split; reflexivity ].
Qed.

Lemma history_of_app (l l' : list RequestLog.t) :
  Sessions.history_of (l ++ l')
  = (Sessions.history_of l ++ Sessions.history_of l')%list.
Proof. unfold Sessions.history_of. apply flat_map_app. Qed.

Lemma served_well_step costs validation_text settings db c :
  Sessions.served_well db ->
  Sessions.served_well (Sessions.serve costs validation_text settings db c).
Proof.
  intros (Hc & Hs).
  destruct (serve_shape costs validation_text settings db c)
    as [-> | [H | H]].
  - split; assumption.
  - destruct H as (err & Hl & He & Hm). unfold Sessions.served_well.
    rewrite Hl, Hm. split.
    + rewrite forallb_app, Hc. cbn [forallb]. unfold Sessions.complete.
      rewrite He. reflexivity.
    + rewrite history_of_app. unfold Sessions.history_of at 2.
      cbn [flat_map]. unfold Sessions.observation_of. rewrite He.
      rewrite !app_nil_r. exact Hs.
  - destruct H as (log & tail & Hl & He & Hcl & Ht & Hm).
    unfold Sessions.served_well. rewrite Hl, Hm. split.
    + rewrite forallb_app, Hc. cbn [forallb]. rewrite Hcl.
      destruct Ht as [-> | (err & -> & Herr)]; [reflexivity |].
      cbn [forallb]. unfold Sessions.complete. rewrite Herr. reflexivity.
    + rewrite history_of_app. unfold Sessions.history_of at 2.
      cbn [flat_map].
      assert (T : flat_map Sessions.observation_of tail = []).
      { destruct Ht as [-> | (err & -> & Herr)]; [reflexivity |].
        cbn [flat_map]. unfold Sessions.observation_of. rewrite Herr.
        reflexivity. }
      rewrite T, app_nil_r. unfold History.record_all at 2.
      rewrite fold_left_app. rewrite Hs. reflexivity.
Qed.

Lemma served_well_all costs validation_text settings calls :
  forall db,
    Sessions.served_well db ->
    Sessions.served_well
      (Sessions.serve_all costs validation_text settings calls db).
Proof.
  unfold Sessions.serve_all.
  induction calls as [| c calls IH]; intros db H; cbn [fold_left]; [exact H |].
  apply IH, served_well_step, H.
Qed.

Lemma served_well_empty : Sessions.served_well Examples.empty_db.
Proof. split; reflexivity. Qed.

(** The request log only grows: a sequence of calls keeps the rows that
    were there, in order, and adds at most two rows per call. *)
Theorem request_log_is_append_only costs validation_text settings calls :
  forall db,
  exists added,
    request_logs (Sessions.serve_all costs validation_text settings calls db)
    = (request_logs db ++ added)%list
    /\ (List.length added <= 2 * List.length calls)%nat.
Proof.
  unfold Sessions.serve_all.
  induction calls as [| c calls IH]; intros db; cbn [fold_left].
  - exists []. rewrite app_nil_r. split; [reflexivity | cbn; lia].
  - destruct (IH (Sessions.serve costs validation_text settings db c))
      as (added & Ha & Hn).
    rewrite Ha.
    destruct (serve_shape costs validation_text settings db c)
      as [-> | [H | H]].
    + exists added. split; [reflexivity | cbn [List.length]; lia].
    + destruct H as (err & -> & _ & _). exists ([err] ++ added)%list.
      rewrite app_assoc. split; [reflexivity |].
      rewrite length_app. cbn [List.length]. lia.
    + destruct H as (log & tail & -> & _ & _ & Ht & _).
      exists ((log :: tail) ++ added)%list.
      rewrite app_assoc. split; [reflexivity |].
      rewrite length_app.
      destruct Ht as [-> | (err & -> & _)]; cbn [List.length]; lia.
Qed.

(** Both bounds are met: a request whose message has no content adds
    two rows, the success row and the error row. *)
Example two_rows_for_one_call :
  List.length
    (request_logs
       (Sessions.serve Examples.costs_with_baseline Examples.validation_text
          Config.default_settings Examples.empty_db
          {| Sessions.call_backend := Examples.silent_backend;
             Sessions.call_latency := 250;
             Sessions.call_request := Examples.hello |})) = 2%nat.
Proof. reflexivity. Qed.

Lemma Zsum_snoc (l : list Z) (x : Z) :
  Sessions.Zsum (l ++ [x]) = (Sessions.Zsum l + x)%Z.
Proof.
  unfold Sessions.Zsum. induction l as [| y l IH]; cbn [app fold_right]; lia.
Qed.

Lemma running_cost_snoc (l : list float) (x : float) :
  l <> [] ->
  Sessions.running_cost (l ++ [x]) = (Sessions.running_cost l + x)%float.
Proof.
  destruct l as [| first rest]; [contradiction | intros _].
  cbn [app Sessions.running_cost]. rewrite fold_left_app. reflexivity.
Qed.

Lemma filter_backend_snoc (h : list History.observation) o m :
  filter (fun o' => String.eqb (History.backend o') m) (h ++ [o])
  = (filter (fun o' => String.eqb (History.backend o') m) h
     ++ (if String.eqb (History.backend o) m then [o] else []))%list.
Proof.
  rewrite filter_app. cbn [filter].
  destruct (String.eqb (History.backend o) m); reflexivity.
Qed.

(** The token and cost totals of a row are the totals over the history
    of its backend. *)
Lemma totals_record_all (h : list History.observation) :
  forall m,
    match History.find_stat m (History.record_all [] h) with
    | None => filter (fun o => String.eqb (History.backend o) m) h = []
    | Some r =>
        filter (fun o => String.eqb (History.backend o) m) h <> []
        /\ ModelStats.total_tokens r = Sessions.Zsum (Sessions.tokens_of m h)
        /\ ModelStats.total_cost_usd r
           = Sessions.running_cost (Sessions.costs_of m h)
    end.
Proof.
  induction h as [| o h IH] using rev_ind; intros m; [reflexivity |].
  unfold History.record_all. rewrite fold_left_app. cbn [fold_left].
  fold (History.record_all [] h). unfold History.record_one.
  unfold Sessions.tokens_of, Sessions.costs_of.
  rewrite filter_backend_snoc.
  destruct (String.eqb_spec (History.backend o) m) as [E | E].
  - subst m. rewrite find_stat_update_same.
    specialize (IH (History.backend o)).
    unfold Sessions.tokens_of, Sessions.costs_of in IH.
    destruct (History.find_stat (History.backend o) (History.record_all [] h))
      as [r |].
    + destruct IH as (Hf & Ht & Hc).
      cbn [ModelStats.total_tokens ModelStats.total_cost_usd].
      rewrite !map_app. cbn [map].
      rewrite Zsum_snoc, running_cost_snoc, Ht, Hc.
      * split; [| split; reflexivity].
        intros F. apply app_eq_nil in F as [_ F]. discriminate.
      * intros F. apply map_eq_nil in F. contradiction.
    + rewrite IH. cbn. split; [discriminate |]. split; [lia | reflexivity].
  - rewrite find_stat_update_other by congruence. rewrite app_nil_r.
    apply IH.
Qed.

(** After any sequence of calls on an empty database the aggregate table
    agrees with the request log: a backend has a row exactly when a
    successful row names it, and the row holds the number of those rows,
    the sum of their tokens, and the total cost and the average latency
    that the additions and the recurrence of the code give in binary64
    when run over those rows in order. *)
Theorem aggregate_row_matches_log costs validation_text settings calls
        (m : string) :
  let db := Sessions.serve_all costs validation_text settings calls
                               Examples.empty_db in
  let h := Sessions.history_of (request_logs db) in
  match History.find_stat m (model_stats db) with
  | None => filter (fun o => String.eqb (History.backend o) m) h = []
  | Some r =>
      filter (fun o => String.eqb (History.backend o) m) h <> []
      /\ ModelStats.total_requests r
         = Z.of_nat (List.length (History.latencies_of m h))
      /\ ModelStats.avg_latency_ms r
         = History.running_average (History.latencies_of m h)
      /\ ModelStats.total_tokens r = Sessions.Zsum (Sessions.tokens_of m h)
      /\ ModelStats.total_cost_usd r
         = Sessions.running_cost (Sessions.costs_of m h)
  end.
Proof.
  intros db h.
  destruct (served_well_all costs validation_text settings calls _
              served_well_empty) as (_ & Hs).
  fold db in Hs. fold h in Hs. rewrite Hs.
  pose proof (tracks_record_all h m) as Ht.
  pose proof (totals_record_all h m) as Hz.
  destruct (History.find_stat m (History.record_all [] h)) as [r |].
  - destruct Ht as (_ & Hn & Ha). destruct Hz as (Hf & Hk & Hc). auto.
  - exact Hz.
Qed.

(** A call never touches the aggregate row of a backend other than the
    one the prompt is routed to. *)
Theorem other_backends_rows_untouched costs validation_text settings db c
        (m : string) :
  Config.DIFFICULTY_TO_MODEL settings
    (difficulty (classify (PromptRequest.prompt (Sessions.call_request c))))
  <> m ->
  History.find_stat m
    (model_stats (Sessions.serve costs validation_text settings db c))
  = History.find_stat m (model_stats db).
Proof.
  intros Hne.
  unfold Sessions.serve, Main.generate_with, ModelRouter.route_and_generate.
  destruct (ModelRouter.status _); [| reflexivity].
  destruct (Py.dict_get costs _) as [p |]; [| reflexivity].
  destruct (Py.float_of_int _) as [t |]; [| reflexivity].
  destruct (Py.dict_get costs "gpt-4o") as [b |]; [| reflexivity].
  match goal with
  | |- context [Main.update_model_stats ?s ?k ?n ?a ?l] =>
      pose proof (find_stat_update_other s k m n a l) as G;
      destruct (Main.update_model_stats s k n a l) as [stats raised]
  end.
  cbn [fst] in G.
  destruct raised as [e |]; [| destruct (ModelRouter.response _) as [r |]];
    cbn [fst model_stats Main.log_error]; apply G; congruence.
Qed.

Lemma other_backends_rows_untouched_witness :
  History.find_stat "google/gemini-flash-1.5"
    (model_stats
       (Sessions.serve Examples.costs_with_baseline Examples.validation_text
          Config.default_settings Examples.empty_db
          {| Sessions.call_backend := Examples.ok_backend;
             Sessions.call_latency := 250;
             Sessions.call_request := Examples.hello |}))
  = History.find_stat "google/gemini-flash-1.5" (model_stats Examples.empty_db).
Proof.
  apply (other_backends_rows_untouched Examples.costs_with_baseline
           Examples.validation_text
           Config.default_settings Examples.empty_db
           {| Sessions.call_backend := Examples.ok_backend;
              Sessions.call_latency := 250;
              Sessions.call_request := Examples.hello |}
           "google/gemini-flash-1.5").
  vm_compute. discriminate.
Defined.

(* ================================================================== *)
(** ** The statistics of a served database *)

Lemma sum_column_from (l : list (option float)) :
  Forall (fun x => x <> None) l ->
  forall a, exists s,
    fold_left (fun acc x =>
                 match acc, x with
                 | Some a, Some v => Some (a + v)%float
                 | _, _ => None
                 end) l (Some a) = Some s.
Proof.
  induction 1 as [| x l Hx _ IH]; intros a; cbn [fold_left]; [eauto |].
  destruct x as [v |]; [apply IH | contradiction].
Qed.

Lemma complete_columns (logs : list RequestLog.t) :
  forallb Sessions.complete logs = true ->
  Forall (fun x => x <> None)
         (map RequestLog.cost_usd (filter Main.is_success logs))
  /\ Forall (fun x => x <> None)
            (map RequestLog.cost_saved_usd (filter Main.is_success logs))
  /\ Forall (fun x => x <> None)
            (map RequestLog.latency_ms (filter Main.is_success logs)).
Proof.
  induction logs as [| log logs IH]; cbn [forallb filter map]; intros H;
    [repeat split; constructor |].
  apply andb_prop in H as [Hl H]. specialize (IH H).
  destruct IH as (I1 & I2 & I3).
  unfold Sessions.complete in Hl. unfold Main.is_success.
  destruct (RequestLog.status log); [| repeat split; assumption].
  cbn [map].
  destruct (RequestLog.cost_usd log); [| discriminate].
  destruct (RequestLog.cost_saved_usd log); [| discriminate].
  destruct (RequestLog.latency_ms log); [| discriminate].
  repeat split; constructor; try assumption; discriminate.
Qed.

(** After any sequence of calls on an empty database the statistics can
    be computed (no sum meets NULL), and the total they report is the
    number of successful rows. *)
Theorem stats_of_served_database costs validation_text settings calls :
  let db := Sessions.serve_all costs validation_text settings calls
                               Examples.empty_db in
  exists stats,
    Main.get_stats db = Some stats
    /\ StatsResponse.total_requests stats
       = List.length (filter Main.is_success (request_logs db)).
Proof.
  intros db.
  destruct (served_well_all costs validation_text settings calls _
              served_well_empty) as (Hc & _).
  fold db in Hc. apply complete_columns in Hc as (H1 & H2 & H3).
  unfold Main.get_stats.
  destruct (filter Main.is_success (request_logs db)) as [| log logs].
  - eexists. split; reflexivity.
  - unfold Py.sum_column.
    destruct (sum_column_from _ H1 0%float) as [s1 ->].
    destruct (sum_column_from _ H2 0%float) as [s2 ->].
    destruct (sum_column_from _ H3 0%float) as [s3 ->].
    eexists. split; reflexivity.
Qed.

Lemma serve_shipped_shape validation_text settings db c :
  let db' := Sessions.serve Config.MODEL_COSTS validation_text settings db c in
  model_stats db' = model_stats db
  /\ (db' = db
      \/ exists log, request_logs db' = (request_logs db ++ [log])%list
                     /\ RequestLog.status log = error).
Proof.
  unfold Sessions.serve, Main.generate_with, ModelRouter.route_and_generate.
  destruct (ModelRouter.status _);
    [| split; [reflexivity | left; reflexivity]].
  destruct (Py.dict_get Config.MODEL_COSTS _) as [p |];
    [destruct (Py.float_of_int _) as [t |];
     [rewrite baseline_price_missing |] |];
    unfold Main.log_error; cbn [fst request_logs model_stats];
    (split; [reflexivity |]); right; eexists; split; reflexivity.
Qed.

(** With the price table of [app/config.py], whatever the settings and
    the backends, no sequence of requests ever stores a successful row
    or an aggregate row, and the statistics stay all zero. *)
Theorem shipped_table_never_records_success validation_text settings calls :
  let db := Sessions.serve_all Config.MODEL_COSTS validation_text settings
                               calls Examples.empty_db in
  filter Main.is_success (request_logs db) = []
  /\ model_stats db = []
  /\ Main.get_stats db
     = Some {| StatsResponse.total_requests := 0;
               StatsResponse.total_cost_usd := 0;
               StatsResponse.total_saved_usd := 0;
               StatsResponse.model_breakdown := [];
               StatsResponse.avg_latency_ms := 0 |}.
Proof.
  intros db.
  assert (H : filter Main.is_success (request_logs db) = []
              /\ model_stats db = []).
  { subst db. unfold Sessions.serve_all.
    assert (G : forall db0,
               filter Main.is_success (request_logs db0) = []
               /\ model_stats db0 = [] ->
               filter Main.is_success
                 (request_logs
                    (fold_left (Sessions.serve Config.MODEL_COSTS
                                               validation_text settings)
                               calls db0)) = []
               /\ model_stats
                    (fold_left (Sessions.serve Config.MODEL_COSTS
                                               validation_text settings)
                               calls db0) = []).
    { induction calls as [| c calls IH]; intros db0 H0; cbn [fold_left];
        [exact H0 |].
      apply IH. destruct H0 as [Hf Hm].
      destruct (serve_shipped_shape validation_text settings db0 c)
        as [Hs [-> | [log [Hl He]]]].
      - split; assumption.
      - rewrite Hs, Hl, filter_app, Hf. cbn [filter app].
        unfold Main.is_success. rewrite He. split; [reflexivity | exact Hm]. }
    apply G. split; reflexivity. }
  destruct H as [Hf Hm]. split; [exact Hf |]. split; [exact Hm |].
  unfold Main.get_stats. rewrite Hf. reflexivity.
Qed.


Lemma dict_get_set_same {V : Type} (d : Py.dict V) (k : string) (v : V) :
  Py.dict_get (Py.dict_set d k v) k = Some v.
Proof.
  induction d as [| [k' v'] d IH]; cbn [Py.dict_set Py.dict_get].
  - rewrite String.eqb_refl. reflexivity.
  - destruct (String.eqb k' k) eqn:E; cbn [Py.dict_get].
    + rewrite String.eqb_refl. reflexivity.
    + rewrite E. exact IH.
Qed.

Lemma dict_get_set_other {V : Type} (d : Py.dict V) (k k' : string) (v : V) :
  k <> k' -> Py.dict_get (Py.dict_set d k v) k' = Py.dict_get d k'.
Proof.
  intros Hne.
  induction d as [| [k0 v0] d IH]; cbn [Py.dict_set Py.dict_get].
  - destruct (String.eqb_spec k k'); [contradiction | reflexivity].
  - destruct (String.eqb_spec k0 k) as [-> | E]; cbn [Py.dict_get].
    + destruct (String.eqb_spec k k'); [contradiction | reflexivity].
    + destruct (String.eqb k0 k'); [reflexivity | exact IH].
Qed.

Lemma find_stat_snoc (m : string) (stats : list ModelStats.t) (st : ModelStats.t) :
  History.find_stat m (stats ++ [st])
  = match History.find_stat m stats with
    | Some r => Some r
    | None => if String.eqb (ModelStats.model_name st) m then Some st else None
    end.
Proof.
  unfold History.find_stat.
  induction stats as [| x stats IH]; cbn [app find]; [reflexivity |].
  destruct (String.eqb (ModelStats.model_name x) m); [reflexivity | exact IH].
Qed.

Lemma find_stat_absent (m : string) (stats : list ModelStats.t) :
  ~ In m (map ModelStats.model_name stats) -> History.find_stat m stats = None.
Proof.
  unfold History.find_stat.
  induction stats as [| x stats IH]; cbn [map find In]; intros H;
    [reflexivity |].
  destruct (String.eqb_spec (ModelStats.model_name x) m) as [E | E].
  - exfalso. apply H. left. exact E.
  - apply IH. intros Hin. apply H. right. exact Hin.
Qed.

Lemma breakdown_lookup (stats : list ModelStats.t) (m : string) :
  NoDup (map ModelStats.model_name stats) ->
  Py.dict_get
    (fold_left (fun d stat =>
                  Py.dict_set d (ModelStats.model_name stat)
                              (Sessions.breakdown_of stat)) stats []) m
  = option_map Sessions.breakdown_of (History.find_stat m stats).
Proof.
  induction stats as [| st stats IH] using rev_ind; intros Hnd;
    [reflexivity |].
  rewrite map_app in Hnd. cbn [map] in Hnd.
  apply NoDup_remove in Hnd as [Hnd Hnot]. rewrite app_nil_r in Hnd, Hnot.
  rewrite fold_left_app. cbn [fold_left]. rewrite find_stat_snoc.
  destruct (String.eqb_spec (ModelStats.model_name st) m) as [E | E].
  - subst m. rewrite dict_get_set_same, (find_stat_absent _ _ Hnot).
    reflexivity.
  - rewrite dict_get_set_other by exact E. rewrite (IH Hnd).
    destruct (History.find_stat m stats); reflexivity.
Qed.

Lemma update_model_stats_names stats m tok c lat :
  map ModelStats.model_name (fst (Main.update_model_stats stats m tok c lat))
  = if existsb (fun st => String.eqb (ModelStats.model_name st) m) stats
    then map ModelStats.model_name stats
    else (map ModelStats.model_name stats ++ [m])%list.
Proof.
  induction stats as [| st stats IH];
    cbn [Main.update_model_stats existsb map fst]; [reflexivity |].
  destruct (String.eqb (ModelStats.model_name st) m); cbn [orb].
  - destruct (ModelStats.total_requests st + 1 =? 0)%Z; reflexivity.
  - destruct (Main.update_model_stats stats m tok c lat) as [rest raised].
    cbn [fst map] in *. rewrite IH. destruct (existsb _ stats); reflexivity.
Qed.

Lemma update_model_stats_nodup stats m tok c lat :
  NoDup (map ModelStats.model_name stats) ->
  NoDup (map ModelStats.model_name
              (fst (Main.update_model_stats stats m tok c lat))).
Proof.
  intros H. rewrite update_model_stats_names.
  destruct (existsb _ stats) eqn:E; [exact H |].
  apply NoDup_app; [exact H | repeat constructor; intros [] |].
  intros x Hx [<- | []].
  apply in_map_iff in Hx as [st [Hn Hin]].
  assert (T : existsb (fun st => String.eqb (ModelStats.model_name st) m) stats
              = true)
    by (apply existsb_exists; exists st; split;
        [exact Hin | apply String.eqb_eq; exact Hn]).
  congruence.
Qed.

Lemma record_all_nodup (h : list History.observation) :
  forall stats, NoDup (map ModelStats.model_name stats) ->
                NoDup (map ModelStats.model_name (History.record_all stats h)).
Proof.
  unfold History.record_all.
  induction h as [| o h IH]; intros stats H; cbn [fold_left]; [exact H |].
  apply IH. unfold History.record_one. apply update_model_stats_nodup, H.
Qed.

Lemma history_of_failures (logs : list RequestLog.t) :
  filter Main.is_success logs = [] -> Sessions.history_of logs = [].
Proof.
  unfold Sessions.history_of.
  induction logs as [| log logs IH]; cbn [filter flat_map]; [reflexivity |].
  unfold Main.is_success.
  destruct (RequestLog.status log) eqn:E; [discriminate |].
  intros H. rewrite (IH H). unfold Sessions.observation_of. rewrite E.
  reflexivity.
Qed.

(** After any sequence of calls on an empty database the breakdown of
    the statistics has one entry per aggregate row: looking a backend up
    in it gives the counts and the rounded totals of the backend's row,
    and nothing for a backend without a row. *)
Theorem breakdown_agrees_with_rows costs validation_text settings calls :
  let db := Sessions.serve_all costs validation_text settings calls
                               Examples.empty_db in
  exists stats,
    Main.get_stats db = Some stats
    /\ forall m,
        Py.dict_get (StatsResponse.model_breakdown stats) m
        = option_map Sessions.breakdown_of
                     (History.find_stat m (model_stats db)).
Proof.
  intros db.
  destruct (served_well_all costs validation_text settings calls _
              served_well_empty) as (Hc & Hs).
  fold db in Hc, Hs. apply complete_columns in Hc as (H1 & H2 & H3).
  assert (Hnd : NoDup (map ModelStats.model_name (model_stats db)))
    by (rewrite Hs; apply record_all_nodup; constructor).
  unfold Main.get_stats.
  destruct (filter Main.is_success (request_logs db)) as [| log logs] eqn:E.
  - eexists. split; [reflexivity |]. intros m.
    rewrite Hs, (history_of_failures _ E). reflexivity.
  - unfold Py.sum_column.
    destruct (sum_column_from _ H1 0%float) as [s1 ->].
    destruct (sum_column_from _ H2 0%float) as [s2 ->].
    destruct (sum_column_from _ H3 0%float) as [s3 ->].
    eexists. split; [reflexivity |]. intros m.
    cbn [StatsResponse.model_breakdown].
    exact (breakdown_lookup (model_stats db) m Hnd).
Qed.

